(** * generate_docs.py: extraction and generation engines

    A shallow embedding of [scripts/generate_docs.py].  Text is a
    [string] whose characters are read as code points below 256; the
    Python string methods and the [re] patterns the script uses are
    written out as functions over such strings. *)

From Stdlib Require Import Bool Arith Lia List Ascii String Permutation Sorted.
From Stdlib Require Import DecimalString.
Import ListNotations.
Open Scope string_scope.
Open Scope list_scope.
Open Scope nat_scope.

(** ** Python string primitives *)

Module Py.

Definition code (c : ascii) : nat := nat_of_ascii c.

(** [str.isspace] on one character (also what [\s] matches). *)
Definition isspace (c : ascii) : bool :=
  let n := code c in
  ((9 <=? n) && (n <=? 13)) || ((28 <=? n) && (n <=? 32))
  || (n =? 133) || (n =? 160).

(** What [\w] matches: [_] and the characters with [str.isalnum]. *)
Definition isword (c : ascii) : bool :=
  let n := code c in
  ((48 <=? n) && (n <=? 57)) || ((65 <=? n) && (n <=? 90))
  || (n =? 95) || ((97 <=? n) && (n <=? 122))
  || (n =? 170) || (n =? 178) || (n =? 179) || (n =? 181)
  || (n =? 185) || (n =? 186) || ((188 <=? n) && (n <=? 190))
  || ((192 <=? n) && (n <=? 214)) || ((216 <=? n) && (n <=? 246))
  || (248 <=? n).

(** [str.lower] on one character. *)
Definition lower_char (c : ascii) : ascii :=
  let n := code c in
  if ((65 <=? n) && (n <=? 90))
     || ((192 <=? n) && (n <=? 222) && negb (n =? 215))
  then ascii_of_nat (n + 32) else c.

Fixpoint lower (s : string) : string :=
  match s with
  | EmptyString => EmptyString
  | String c s' => String (lower_char c) (lower s')
  end.

(** [s.lstrip(chars)], [s.rstrip(chars)] with the set given as a predicate. *)
Fixpoint lstrip_by (p : ascii -> bool) (s : string) : string :=
  match s with
  | EmptyString => EmptyString
  | String c s' => if p c then lstrip_by p s' else s
  end.

Fixpoint rstrip_by (p : ascii -> bool) (s : string) : string :=
  match s with
  | EmptyString => EmptyString
  | String c s' =>
      match rstrip_by p s' with
      | EmptyString => if p c then EmptyString else String c EmptyString
      | r => String c r
      end
  end.

Definition strip (s : string) : string :=
  rstrip_by isspace (lstrip_by isspace s).

Definition rstrip_chars (chars : string) (s : string) : string :=
  rstrip_by (fun c => existsb (Ascii.eqb c) (list_ascii_of_string chars)) s.

(** [s.split(sep)] for a one-character separator. *)
Fixpoint split (sep : ascii) (s : string) : list string :=
  match s with
  | EmptyString => [EmptyString]
  | String c s' =>
      if Ascii.eqb c sep then EmptyString :: split sep s'
      else match split sep s' with
           | [] => [String c EmptyString]
           | l :: ls => String c l :: ls
           end
  end.

(** [s.split(sep, 1)] when [sep] occurs in [s]: the text before the
    first occurrence and the text after it. *)
Fixpoint split1 (sep : ascii) (s : string) : option (string * string) :=
  match s with
  | EmptyString => None
  | String c s' =>
      if Ascii.eqb c sep then Some (EmptyString, s')
      else match split1 sep s' with
           | Some (a, b) => Some (String c a, b)
           | None => None
           end
  end.

(** [sep.join(parts)]. *)
Definition join (sep : string) (parts : list string) : string :=
  String.concat sep parts.

Definition startswith (p s : string) : bool := String.prefix p s.

(** [needle in s]. *)
Fixpoint contains (needle s : string) : bool :=
  String.prefix needle s
  || match s with
     | EmptyString => false
     | String _ s' => contains needle s'
     end.

(** [s[n:]], [s[:n]]. *)
Fixpoint drop (n : nat) (s : string) : string :=
  match n, s with
  | S n', String _ s' => drop n' s'
  | _, _ => s
  end.

Fixpoint take (n : nat) (s : string) : string :=
  match n, s with
  | S n', String c s' => String c (take n' s')
  | _, _ => EmptyString
  end.

(** [s.count(c)] for one character. *)
Fixpoint count (c : ascii) (s : string) : nat :=
  match s with
  | EmptyString => 0
  | String a s' => (if Ascii.eqb a c then 1 else 0) + count c s'
  end.

(** [str(n)] for a non-negative integer. *)
Definition str_of_nat (n : nat) : string :=
  NilEmpty.string_of_uint (Nat.to_uint n).

(** Truth value of a string. *)
Definition truthy (s : string) : bool :=
  match s with EmptyString => false | _ => true end.

Definition NL : ascii := "010"%char.

End Py.

(** ** The [re] patterns as a backtracking matcher *)

Module Re.

Inductive regex : Type :=
| Eps : regex
| Chr : (ascii -> bool) -> regex
| Seq : regex -> regex -> regex
| Alt : regex -> regex -> regex
| Star : bool -> regex -> regex      (* [true]: greedy; [false]: lazy *)
| Group : string -> regex -> regex.

Fixpoint Lit (s : string) : regex :=
  match s with
  | EmptyString => Eps
  | String c s' => Seq (Chr (Ascii.eqb c)) (Lit s')
  end.

Definition Plus (r : regex) : regex := Seq r (Star true r).
Definition Opt (r : regex) : regex := Alt r Eps.

Fixpoint seq (rs : list regex) : regex :=
  match rs with
  | [] => Eps
  | [r] => r
  | r :: rs' => Seq r (seq rs')
  end.

Definition one (c : ascii) : ascii -> bool := Ascii.eqb c.
Definition none_of (cs : string) : ascii -> bool :=
  fun c => negb (existsb (Ascii.eqb c) (list_ascii_of_string cs)).
Definition any : ascii -> bool := fun _ => true.          (* [.] with DOTALL *)
Definition dot : ascii -> bool := fun c => negb (Ascii.eqb c Py.NL).

Definition captures : Type := list (string * string).

Fixpoint group (cs : captures) (g : string) : option string :=
  match cs with
  | [] => None
  | (g', t) :: cs' => if String.eqb g' g then Some t else group cs' g
  end.

Record state : Type := mkState { rest : string; caps : captures }.

(** The loop of a repetition: [body] runs one iteration, [n] bounds the
    number of iterations, and an iteration has to consume a character (all
    repeated bodies of the script's patterns do). *)
Fixpoint star_loop (body : (state -> option state) -> state -> option state)
  (greedy : bool) (k : state -> option state) (n : nat) (st : state)
  {struct n} : option state :=
  match n with
  | O => k st
  | S n' =>
      let again st' :=
        if String.length (rest st') <? String.length (rest st)
        then star_loop body greedy k n' st' else None in
      if greedy then
        match body again st with
        | Some res => Some res
        | None => k st
        end
      else
        match k st with
        | Some res => Some res
        | None => body again st
        end
  end.

(** [run r k st] matches [r] at the start of [rest st] and hands the
    state after it to [k]; the alternatives are tried in the order of a
    backtracking engine. *)
Fixpoint run (r : regex) (k : state -> option state) (st : state)
  {struct r} : option state :=
  match r with
  | Eps => k st
  | Chr p =>
      match rest st with
      | String c s' => if p c then k (mkState s' (caps st)) else None
      | EmptyString => None
      end
  | Seq r1 r2 => run r1 (run r2 k) st
  | Alt r1 r2 =>
      match run r1 k st with
      | Some res => Some res
      | None => run r2 k st
      end
  | Star greedy r1 =>
      star_loop (run r1) greedy k (S (String.length (rest st))) st
  | Group g r1 =>
      run r1 (fun st' =>
                let t := Py.take (String.length (rest st)
                                  - String.length (rest st')) (rest st) in
                k (mkState (rest st') ((g, t) :: caps st'))) st
  end.

(** A match object: where it starts, how long it is, its groups. *)
Record match_obj : Type :=
  mkMatch { m_start : nat; m_len : nat; m_groups : captures }.

(** [pattern.match] at the start of [s]. *)
Definition match_at (r : regex) (pos : nat) (s : string) : option match_obj :=
  match run r (fun st => Some st) (mkState s []) with
  | Some st => Some (mkMatch pos (String.length s - String.length (rest st))
                             (caps st))
  | None => None
  end.

(** [pattern.finditer(s)]: the leftmost match, then on from its end.
    [skip] counts the characters of the last match that are still to be
    passed.  The script's patterns match no empty text; after an empty match
    the scan moves on by one character. *)
Fixpoint scan (r : regex) (skip pos : nat) (s : string) : list match_obj :=
  match skip with
  | S skip' =>
      match s with
      | String _ s' => scan r skip' (S pos) s'
      | EmptyString => []
      end
  | O =>
      match match_at r pos s with
      | Some m =>
          m :: match s with
               | String _ s' => scan r (pred (m_len m)) (S pos) s'
               | EmptyString => []
               end
      | None =>
          match s with
          | String _ s' => scan r 0 (S pos) s'
          | EmptyString => []
          end
      end
  end.

Definition finditer (r : regex) (s : string) : list match_obj := scan r 0 0 s.

(** [pattern.search(s)]. *)
Fixpoint search_from (r : regex) (pos : nat) (s : string) : option match_obj :=
  match match_at r pos s with
  | Some m => Some m
  | None =>
      match s with
      | String _ s' => search_from r (S pos) s'
      | EmptyString => None
      end
  end.

Definition search (r : regex) (s : string) : option match_obj :=
  search_from r 0 s.

(** What a successful run of the matcher has found: [matches r t c c']
    says that [r] matches the text [t] and turns the groups [c] into [c']. *)
Inductive matches : regex -> string -> captures -> captures -> Prop :=
| M_Eps c : matches Eps "" c c
| M_Chr p a c : p a = true -> matches (Chr p) (String a "") c c
| M_Seq r1 r2 t1 t2 c c1 c2 :
    matches r1 t1 c c1 -> matches r2 t2 c1 c2 ->
    matches (Seq r1 r2) (t1 ++ t2) c c2
| M_AltL r1 r2 t c c' : matches r1 t c c' -> matches (Alt r1 r2) t c c'
| M_AltR r1 r2 t c c' : matches r2 t c c' -> matches (Alt r1 r2) t c c'
| M_StarO g r c : matches (Star g r) "" c c
| M_StarS g r t1 t2 c c1 c2 :
    matches r t1 c c1 -> matches (Star g r) t2 c1 c2 ->
    matches (Star g r) (t1 ++ t2) c c2
| M_Group g r t c c' : matches r t c c' -> matches (Group g r) t c ((g, t) :: c').

(** The groups that have a value after every match of [r]. *)
Fixpoint binds (r : regex) : list string :=
  match r with
  | Seq r1 r2 => binds r1 ++ binds r2
  | Group g r1 => g :: binds r1
  | _ => []
  end.

(** Every text that a group named [g] of [r] can capture satisfies [P]. *)
Fixpoint captured (P : string -> Prop) (g : string) (r : regex) : Prop :=
  match r with
  | Group g' r1 =>
      (g' = g -> forall t c c', matches r1 t c c' -> P t) /\ captured P g r1
  | Seq r1 r2 | Alt r1 r2 => captured P g r1 /\ captured P g r2
  | Star _ r1 => captured P g r1
  | _ => True
  end.

(** Every character of [s] satisfies [p]. *)
Fixpoint all_chars (p : ascii -> bool) (s : string) : Prop :=
  match s with
  | EmptyString => True
  | String c s' => p c = true /\ all_chars p s'
  end.

End Re.

(** ** Data model *)

Record StructInfo : Type := mkStructInfo {
  s_name : string;
  s_doc_comment : string;
  s_fields : list (string * string * string);      (* (name, type, doc) *)
  s_attributes : list string;
  s_file_path : string;
  s_line_number : nat;
  s_size_calculation : option string
}.

Record FunctionInfo : Type := mkFunctionInfo {
  f_name : string;
  f_doc_comment : string;
  f_signature : string;
  f_file_path : string;
  f_line_number : nat;
  f_is_public : bool;
  f_parameters : list (string * string);           (* (name, type) *)
  f_return_type : string
}.

(** ** Failures

    A group that took no part in a match is [None] in Python.  Wherever
    the script uses such a value as a string without a guard the embedding
    stops with [TypeError]. *)

Inductive exn : Type := TypeError.

Inductive result (A : Type) : Type :=
| Ok (a : A)
| Raise (e : exn).
Arguments Ok {A} a.
Arguments Raise {A} e.

Definition bind {A B : Type} (x : result A) (f : A -> result B) : result B :=
  match x with
  | Ok a => f a
  | Raise e => Raise e
  end.

Notation "x <- e1 ;; e2" := (bind e1 (fun x => e2))
  (at level 61, e1 at next level, right associativity).

(** [match.group(g)] used as a string. *)
Definition group_str (m : Re.match_obj) (g : string) : result string :=
  match Re.group (Re.m_groups m) g with
  | Some t => Ok t
  | None => Raise TypeError
  end.

Fixpoint mapM {A B : Type} (f : A -> result B) (l : list A) : result (list B) :=
  match l with
  | [] => Ok []
  | a :: l' => b <- f a ;; bs <- mapM f l' ;; Ok (b :: bs)
  end.

(** ** Extraction engine *)

Module RustDocExtractor.
Import Re.

Definition ws : regex := Star true (Chr Py.isspace).            (* [\s*] *)
Definition ws1 : regex := Plus (Chr Py.isspace).                (* [\s+] *)
Definition word1 : regex := Plus (Chr Py.isword).               (* [\w+] *)

(** [(?:///.*\n)*], with [.] as the flags of the pattern make it. *)
Definition doc_run (dotc : ascii -> bool) : regex :=
  Star true (seq [Lit "///"; Star true (Chr dotc); Chr (one Py.NL)]).

(** [(?:<[^>]*>)?] *)
Definition generics : regex :=
  Opt (seq [Chr (one "<"); Star true (Chr (none_of ">")); Chr (one ">")]).

(** The pattern of [_extract_structs] (MULTILINE | DOTALL). *)
Definition struct_pattern : regex :=
  seq [ Group "doc" (doc_run any); ws;
        Group "attrs"
          (Star true (seq [Lit "#["; Star true (Chr any); Chr (one "]"); ws]));
        Lit "pub"; ws1; Lit "struct"; ws1; Group "name" word1; ws;
        generics; ws; Chr (one "{"); ws;
        Group "fields" (Star false (Chr any)); ws; Chr (one "}") ].

(** The pattern of [_extract_functions] (MULTILINE). *)
Definition func_pattern : regex :=
  seq [ Group "doc" (doc_run dot); ws;
        Opt (Group "visibility" (seq [Lit "pub"; ws1]));
        Lit "fn"; ws1; Group "name" word1; ws;
        generics; ws;
        Chr (one "("); Group "params" (Star true (Chr (none_of ")")));
        Chr (one ")"); ws;
        Opt (seq [Lit "->"; ws; Group "return" (Plus (Chr (none_of "{;")))]);
        ws; Chr (fun c => Ascii.eqb c "{" || Ascii.eqb c ";") ].

(** The pattern of [_extract_fields] (MULTILINE). *)
Definition field_pattern : regex :=
  seq [ Group "doc" (doc_run dot); ws;
        Lit "pub"; ws1; Group "name" word1; ws; Chr (one ":"); ws;
        Group "type" (Plus (Chr (fun c => negb (Ascii.eqb c ",")
                                          && negb (Ascii.eqb c Py.NL)))) ].

(** [#\[([^\]]+)\]] *)
Definition attr_pattern : regex :=
  seq [ Lit "#["; Group "1" (Plus (Chr (none_of "]"))); Chr (one "]") ].

(** The pattern of [_find_size_calculation] for a struct name.  The name
    is a run of [\w] characters, which stand for themselves in a pattern. *)
Definition impl_pattern (struct_name : string) : regex :=
  seq [ Lit "impl"; ws1;
        Alt (Lit struct_name)
            (seq [Lit "ZeroCopyAccount"; ws1; Lit "for"; ws1; Lit struct_name]);
        ws; Chr (one "{"); Star false (Chr (none_of "}"));
        Lit "fn"; ws1; Lit "space()"; ws; Lit "->"; ws; Lit "usize"; ws;
        Chr (one "{"); ws; Group "1" (Plus (Chr (none_of "}"))); ws;
        Chr (one "}") ].

Definition _clean_line (acc : list string) (line : string) : list string :=
  let line := Py.strip line in
  if Py.startswith "///" line then acc ++ [Py.strip (Py.drop 3 line)]
  else if Py.startswith "//!" line then acc ++ [Py.strip (Py.drop 3 line)]
  else acc.

Definition _clean_doc_comment (doc_text : string) : string :=
  if negb (Py.truthy doc_text) then ""
  else
    let lines := Py.split Py.NL (Py.strip doc_text) in
    let cleaned_lines := fold_left _clean_line lines [] in
    Py.join (String Py.NL "") cleaned_lines.

(** [_clean_doc_comment(match.group('doc'))]: [None] is falsy too. *)
Definition clean_group (m : match_obj) (g : string) : string :=
  match group (m_groups m) g with
  | Some t => _clean_doc_comment t
  | None => ""
  end.

Definition _extract_fields (fields_text : string)
  : result (list (string * string * string)) :=
  mapM (fun m =>
          let doc := clean_group m "doc" in
          name <- group_str m "name" ;;
          ty <- group_str m "type" ;;
          let field_type := Py.rstrip_chars "," (Py.strip ty) in
          Ok (name, field_type, doc))
       (finditer field_pattern fields_text).

Definition _extract_parameter (parameters : list (string * string))
  (param : string) : list (string * string) :=
  let param := Py.strip param in
  match Py.split1 ":" param with
  | Some (name_part, type_part) =>
      let name := Py.strip name_part in
      let param_type := Py.strip type_part in
      let name := if Py.startswith "mut " name then Py.drop 4 name else name in
      let name := if Py.startswith "&" name then Py.drop 1 name else name in
      parameters ++ [(name, param_type)]
  | None => parameters
  end.

Definition _extract_parameters (params_text : string) : list (string * string) :=
  if negb (Py.truthy (Py.strip params_text)) then []
  else fold_left _extract_parameter (Py.split "," params_text) [].

Definition _find_size_calculation (content struct_name : string)
  : result (option string) :=
  match search (impl_pattern struct_name) content with
  | Some m => t <- group_str m "1" ;; Ok (Some (Py.strip t))
  | None => Ok None
  end.

(** [content[:start].count('\n') + 1] *)
Definition line_of (content : string) (start : nat) : nat :=
  Py.count Py.NL (Py.take start content) + 1.

(** The body of the loop of [_extract_structs].  [file_path] is the path
    of the file relative to the source directory, as a string. *)
Definition struct_of_match (content file_path : string) (m : match_obj)
  : result StructInfo :=
  let doc_comment := clean_group m "doc" in
  attrs_text <- group_str m "attrs" ;;
  attrs <- mapM (fun a => t <- group_str a "1" ;; Ok (Py.strip t))
                (finditer attr_pattern attrs_text) ;;
  name <- group_str m "name" ;;
  fields_text <- group_str m "fields" ;;
  fields <- _extract_fields fields_text ;;
  let line_number := line_of content (m_start m) in
  size_calc <- _find_size_calculation content name ;;
  Ok (mkStructInfo name doc_comment fields attrs file_path line_number size_calc).

(** The body of the loop of [_extract_functions]. *)
Definition function_of_match (content file_path : string) (m : match_obj)
  : result FunctionInfo :=
  let doc_comment := clean_group m "doc" in
  name <- group_str m "name" ;;
  let is_public :=
    match group (m_groups m) "visibility" with Some _ => true | None => false end in
  let params_text :=
    match group (m_groups m) "params" with
    | Some t => if Py.truthy t then t else ""
    | None => ""
    end in
  let return_type :=
    match group (m_groups m) "return" with
    | Some t => if Py.truthy t then t else "()"
    | None => "()"
    end in
  let parameters := _extract_parameters params_text in
  let line_number := line_of content (m_start m) in
  let signature :=
    ("fn " ++ name ++ "(" ++ params_text ++ ") -> " ++ Py.strip return_type)%string in
  Ok (mkFunctionInfo name doc_comment signature file_path line_number
                     is_public parameters (Py.strip return_type)).

(** The extractor object: the two collections it accumulates. *)
Record t : Type := mk { structs : list StructInfo; functions : list FunctionInfo }.

Definition init : t := mk [] [].

(** A method that appends to the collections either returns, or raises
    with the collections as they were when it raised. *)
Inductive outcome : Type :=
| Returned (self : t)
| Raised (e : exn) (self : t).

Fixpoint for_each {A : Type} (body : A -> t -> outcome) (l : list A) (self : t)
  : outcome :=
  match l with
  | [] => Returned self
  | a :: l' =>
      match body a self with
      | Returned self' => for_each body l' self'
      | Raised e self' => Raised e self'
      end
  end.

Definition _extract_structs (content file_path : string) (self : t) : outcome :=
  for_each (fun m self =>
              match struct_of_match content file_path m with
              | Ok struct_info =>
                  Returned (mk (structs self ++ [struct_info]) (functions self))
              | Raise e => Raised e self
              end)
           (finditer struct_pattern content) self.

Definition _extract_functions (content file_path : string) (self : t) : outcome :=
  for_each (fun m self =>
              match function_of_match content file_path m with
              | Ok func_info =>
                  Returned (mk (structs self) (functions self ++ [func_info]))
              | Raise e => Raised e self
              end)
           (finditer func_pattern content) self.

(** [_extract_from_file] once the text is read: a failure is caught,
    and reported by a warning. *)
Definition _extract_from_file (content file_path : string) (self : t)
  : t * bool :=
  match _extract_structs content file_path self with
  | Returned self1 =>
      match _extract_functions content file_path self1 with
      | Returned self2 => (self2, false)
      | Raised _ self2 => (self2, true)
      end
  | Raised _ self1 => (self1, true)
  end.

(** [extract_all]: the files found under the source directory, each with
    its relative path and its text, or [None] when reading it fails; the
    number of warnings printed is counted. *)
Fixpoint extract_all (files : list (string * option string)) (self : t)
  : t * nat :=
  match files with
  | [] => (self, 0)
  | (file_path, read) :: files' =>
      match read with
      | Some content =>
          let '(self', warned) := _extract_from_file content file_path self in
          let '(self'', warnings) := extract_all files' self' in
          (self'', (if warned then 1 else 0) + warnings)
      | None =>
          let '(self'', warnings) := extract_all files' self in
          (self'', 1 + warnings)
      end
  end.

End RustDocExtractor.

(** ** Generation engine *)

(** A Python string literal that ends in a newline. *)
Definition nl (s : string) : string := (s ++ String Py.NL "")%string.

(** A [dict] with string keys, in insertion order. *)
Module Dict.

Definition t (V : Type) : Type := list (string * V).

Fixpoint mem {V : Type} (k : string) (d : t V) : bool :=
  match d with
  | [] => false
  | (k', _) :: d' => String.eqb k' k || mem k d'
  end.

(** [d.get(k)] *)
Fixpoint get {V : Type} (k : string) (d : t V) : option V :=
  match d with
  | [] => None
  | (k', v) :: d' => if String.eqb k' k then Some v else get k d'
  end.

(** [d[k] = v] *)
Fixpoint set {V : Type} (k : string) (v : V) (d : t V) : t V :=
  match d with
  | [] => [(k, v)]
  | (k', v') :: d' =>
      if String.eqb k' k then (k', v) :: d' else (k', v') :: set k v d'
  end.

(** [d[k].append(x)] for a key that is present. *)
Fixpoint append {A : Type} (k : string) (x : A) (d : t (list A)) : t (list A) :=
  match d with
  | [] => []
  | (k', l) :: d' =>
      if String.eqb k' k then (k', l ++ [x]) :: d' else (k', l) :: append k x d'
  end.

(** [sorted(d.items())]: the keys of a dict are distinct, so the order
    of two items is the order of their keys. *)
Fixpoint insert {V : Type} (x : string * V) (l : list (string * V))
  : list (string * V) :=
  match l with
  | [] => [x]
  | y :: l' =>
      if String.ltb (fst y) (fst x) then y :: insert x l' else x :: y :: l'
  end.

Definition sorted_items {V : Type} (d : t V) : list (string * V) :=
  fold_right insert [] d.

(** The order of two items with different keys. *)
Definition lt_key {V : Type} (a b : string * V) : Prop :=
  String.ltb (fst a) (fst b) = true.

End Dict.

Module DocumentationGenerator.

(** The output directory: the files written, in the order of writing. *)
Definition files : Type := list (string * string).

Definition _write_file (filename : string) (content : list string)
  (out : files) : files :=
  out ++ [(filename, Py.join "" content)].

Definition _generate_field (content : list string)
  (field : string * string * string) : list string :=
  let '(name, field_type, doc) := field in
  let content := content ++ [("- `" ++ name ++ ": " ++ field_type ++ "`")%string] in
  let content := if Py.truthy doc then content ++ [(" - " ++ doc)%string]
                 else content in
  content ++ [nl ""].

Definition _generate_struct_section (struct : StructInfo) : list string :=
  let content :=
    [ nl ("### " ++ s_name struct);
      nl ("**Location**: `" ++ s_file_path struct ++ ":"
           ++ Py.str_of_nat (s_line_number struct) ++ "`") ] in
  let content :=
    match s_attributes struct with
    | [] => content
    | _ => content ++ [nl ("**Attributes**: `"
                            ++ Py.join ", " (s_attributes struct) ++ "`")]
    end in
  let content :=
    if Py.truthy (s_doc_comment struct)
    then content ++ [s_doc_comment struct; nl ""] else content in
  let content :=
    match s_size_calculation struct with
    | Some size_calculation =>
        if Py.truthy size_calculation
        then content ++ [ nl "**Size Calculation**:"; nl "```rust";
                          size_calculation;
                          nl (String Py.NL "```") ]
        else content
    | None => content
    end in
  let content :=
    match s_fields struct with
    | [] => content
    | _ => fold_left _generate_field (s_fields struct)
                     (content ++ [nl "**Fields**:"])
    end in
  content ++ [nl ""].

Definition _generate_function_section (func : FunctionInfo) : list string :=
  let content :=
    [ nl ("### " ++ f_name func);
      nl ("**Location**: `" ++ f_file_path func ++ ":"
           ++ Py.str_of_nat (f_line_number func) ++ "`");
      nl ("**Signature**: `" ++ f_signature func ++ "`") ] in
  let content :=
    if Py.truthy (f_doc_comment func)
    then content ++ [f_doc_comment func; nl ""] else content in
  let content :=
    match f_parameters func with
    | [] => content
    | _ => fold_left
             (fun content p =>
                content ++ [nl ("- `" ++ fst p ++ ": " ++ snd p ++ "`")])
             (f_parameters func) (content ++ [nl "**Parameters**:"])
    end in
  content ++ [nl ("**Returns**: `" ++ f_return_type func ++ "`" ++ String Py.NL "")].

(** ['account(zero_copy)' in ' '.join(s.attributes)] *)
Definition is_zero_copy (s : StructInfo) : bool :=
  Py.contains "account(zero_copy)" (Py.join " " (s_attributes s)).

Definition generate_zero_copy_reference (structs : list StructInfo)
  (out : files) : files :=
  let zero_copy_structs := filter is_zero_copy structs in
  match zero_copy_structs with
  | [] => out
  | _ =>
      let content :=
        [ nl "# Zero-Copy Structures Reference";
          "This document provides detailed reference information for all zero-copy structures ";
          nl "in the Solana Borrow-Lending Protocol.";
          nl "## Overview";
          nl ("Total zero-copy structures: **"
               ++ Py.str_of_nat (List.length zero_copy_structs) ++ "**") ] in
      let content :=
        fold_left (fun content struct =>
                     content ++ _generate_struct_section struct)
                  zero_copy_structs content in
      _write_file "zero-copy-reference.md" content out
  end.

(** The branch of the classification taken for a struct: the key of
    [categories] it is appended to. *)
Definition category_of (struct : StructInfo) : string :=
  if Py.contains "account" (Py.join " " (s_attributes struct))
  then "Account Structures"
  else if Py.contains "config" (Py.lower (s_name struct))
  then "Configuration Structures"
  else if existsb (fun keyword => Py.contains keyword (Py.lower (s_name struct)))
                  ["data"; "info"; "cap"; "snapshot"]
  then "Data Structures"
  else "Other Structures".

Definition categories0 : Dict.t (list StructInfo) :=
  [ ("Account Structures", []);
    ("Data Structures", []);
    ("Configuration Structures", []);
    ("Other Structures", []) ].

Definition api_structures_content (structs : list StructInfo) : list string :=
  let content :=
    [ nl "# API Structures Reference";
      nl "Comprehensive reference for all data structures used in the protocol." ] in
  let categories :=
    fold_left (fun categories struct =>
                 Dict.append (category_of struct) struct categories)
              structs categories0 in
  fold_left (fun content item =>
               match snd item with
               | [] => content
               | structs =>
                   fold_left (fun content struct =>
                                content ++ _generate_struct_section struct)
                             structs
                             (content ++ [nl ("## " ++ fst item)])
               end)
            categories content.

Definition generate_api_structures (structs : list StructInfo)
  (out : files) : files :=
  _write_file "api-structures.md" (api_structures_content structs) out.

(** The body of the loop that fills [by_file]. *)
Definition group_step (by_file : Dict.t (list FunctionInfo)) (func : FunctionInfo)
  : Dict.t (list FunctionInfo) :=
  let file_key := f_file_path func in
  Dict.append file_key func
    (if negb (Dict.mem file_key by_file)
     then Dict.set file_key [] by_file else by_file).

Definition group_by_file (public_functions : list FunctionInfo)
  : Dict.t (list FunctionInfo) :=
  fold_left group_step public_functions [].

Definition function_reference_content (functions : list FunctionInfo)
  : list string :=
  let public_functions := filter f_is_public functions in
  let content :=
    [ nl "# Function Reference";
      nl "Reference documentation for all public functions in the protocol.";
      nl ("Total public functions: **"
           ++ Py.str_of_nat (List.length public_functions) ++ "**") ] in
  let by_file := group_by_file public_functions in
  fold_left (fun content item =>
               fold_left (fun content func =>
                            content ++ _generate_function_section func)
                         (snd item)
                         (content ++ [nl ("## " ++ fst item)]))
            (Dict.sorted_items by_file) content.


(** The three statistics lines of the index. *)
Definition stat_structures (structs : list StructInfo) : string :=
  nl ("- **Structures documented**: " ++ Py.str_of_nat (List.length structs)).
Definition stat_functions (functions : list FunctionInfo) : string :=
  nl ("- **Functions documented**: " ++ Py.str_of_nat (List.length functions)).
Definition stat_zero_copy (structs : list StructInfo) : string :=
  nl ("- **Zero-copy structures**: "
       ++ Py.str_of_nat (List.length (filter is_zero_copy structs))).

(** [generate_index]; the timestamp comes from the clock. *)
Definition index_content (timestamp : string) (structs : list StructInfo)
  (functions : list FunctionInfo) : list string :=
  [ nl "# Auto-Generated Documentation Index";
    nl "This index is automatically generated from the Rust source code.";
    nl ("Last updated: " ++ timestamp);
    nl "## Statistics";
    stat_structures structs;
    stat_functions functions;
    stat_zero_copy structs;
    nl "## Generated Files";
    nl "- [Zero-Copy Structures Reference](zero-copy-reference.md)";
    nl "- [API Structures Reference](api-structures.md)";
    nl "- [Function Reference](function-reference.md)";
    nl "## Manual Documentation";
    nl "- [Zero-Copy Architecture Guide](zero-copy-architecture.md)";
    nl "- [Performance Optimization Guide](performance-optimization.md)";
    nl "- [API Reference](api-reference.md)";
    nl "- [User Tutorials](user-tutorials.md)";
    nl "- [Developer Guide](developer-guide.md)" ].



End DocumentationGenerator.

(** ** Specification-side definitions *)

Module Spec.
Import DocumentationGenerator.

(** The order of the categories as the classification rules list them. *)
Definition rule_order : list string :=
  [ "Account Structures"; "Configuration Structures";
    "Data Structures"; "Other Structures" ].

(** The order in which [categories] holds its keys. *)
Definition dict_order : list string :=
  [ "Account Structures"; "Data Structures";
    "Configuration Structures"; "Other Structures" ].

(** The structs of one category, in extraction order. *)
Definition in_category (c : string) (structs : list StructInfo) : list StructInfo :=
  filter (fun s => String.eqb (category_of s) c) structs.

(** One heading per non-empty category of [order], each followed by the
    sections of its structs. *)
Definition render_categories (order : list string) (structs : list StructInfo)
  : list string :=
  [ nl "# API Structures Reference";
    nl "Comprehensive reference for all data structures used in the protocol." ]
  ++ flat_map (fun c =>
                 match in_category c structs with
                 | [] => []
                 | g => nl ("## " ++ c) :: flat_map _generate_struct_section g
                 end) order.

(** The functions of one source path, in extraction order. *)
Definition in_file (p : string) (functions : list FunctionInfo) : list FunctionInfo :=
  filter (fun f => String.eqb (f_file_path f) p) functions.

(** One heading per group, each followed by the sections of its functions. *)
Definition render_groups (groups : list (string * list FunctionInfo))
  : list string :=
  flat_map (fun item =>
              nl ("## " ++ fst item)
              :: flat_map _generate_function_section (snd item)) groups.

Definition function_header (n : nat) : list string :=
  [ nl "# Function Reference";
    nl "Reference documentation for all public functions in the protocol.";
    nl ("Total public functions: **" ++ Py.str_of_nat n ++ "**") ].

Definition zero_copy_header (n : nat) : list string :=
  [ nl "# Zero-Copy Structures Reference";
    "This document provides detailed reference information for all zero-copy structures ";
    nl "in the Solana Borrow-Lending Protocol.";
    nl "## Overview";
    nl ("Total zero-copy structures: **" ++ Py.str_of_nat n ++ "**") ].

(** What [by_file] holds once the functions [l] have been looked at. *)
Definition groups_of (l : list FunctionInfo) (d : Dict.t (list FunctionInfo)) : Prop :=
  NoDup (map fst d)
  /\ forall p, Dict.get p d = match in_file p l with
                              | [] => None
                              | g => Some g
                              end.

(** The characters of [[^,\n]]. *)
Definition field_type_char (c : ascii) : bool :=
  negb (Ascii.eqb c ",") && negb (Ascii.eqb c Py.NL).

(** A field with a name, whose type has no comma and no newline. *)
Definition field_ok (field : string * string * string) : Prop :=
  fst (fst field) <> ""
  /\ Py.contains "," (snd (fst field)) = false
  /\ Py.contains (String Py.NL "") (snd (fst field)) = false.

(** A struct with a name, all of whose fields are as above. *)
Definition struct_ok (s : StructInfo) : Prop :=
  s_name s <> "" /\ Forall field_ok (s_fields s).

(** What one line of a doc block contributes to the cleaned lines. *)
Definition cleaned_line (line : string) : list string :=
  RustDocExtractor._clean_line [] line.

(** The length of the lines of a text, each with its line end. *)
Fixpoint weight (lines : list string) : nat :=
  match lines with
  | [] => 0
  | l :: ls => S (String.length l) + weight ls
  end.

(** Some attribute of the struct contains the zero-copy marker. *)
Definition has_zero_copy_attr (s : StructInfo) : bool :=
  existsb (Py.contains "account(zero_copy)") (s_attributes s).

(** The records of one file, extracted on its own. *)
Definition file_structs (file : string * option string) : list StructInfo :=
  match snd file with
  | Some content =>
      RustDocExtractor.structs
        (fst (RustDocExtractor._extract_from_file content (fst file)
                                                  RustDocExtractor.init))
  | None => []
  end.

Definition file_functions (file : string * option string) : list FunctionInfo :=
  match snd file with
  | Some content =>
      RustDocExtractor.functions
        (fst (RustDocExtractor._extract_from_file content (fst file)
                                                  RustDocExtractor.init))
  | None => []
  end.

(** The files that could not be read. *)
Definition unreadable (files : list (string * option string)) : nat :=
  List.length (filter (fun file => match snd file with
                                   | Some _ => false
                                   | None => true
                                   end) files).

(** The number of lines of a text that end in a newline, plus one. *)
Definition line_count (content : string) : nat := Py.count Py.NL content + 1.

(** The characters other than [a]. *)
Definition is_not (a : ascii) : ascii -> bool := fun c => negb (Ascii.eqb c a).

(** What one piece of a parameter list contributes to the parameters. *)
Definition parameter_of (param : string) : list (string * string) :=
  RustDocExtractor._extract_parameter [] param.

(** Proves [captured P g r] for one of the script's patterns, from a lemma
    on the matches of the body of the group [g]. *)
Ltac captured_by lem :=
  cbv [Re.captured RustDocExtractor.struct_pattern RustDocExtractor.func_pattern
       RustDocExtractor.field_pattern RustDocExtractor.attr_pattern
       RustDocExtractor.impl_pattern Re.seq RustDocExtractor.doc_run
       RustDocExtractor.generics RustDocExtractor.ws RustDocExtractor.ws1
       RustDocExtractor.word1 Re.Opt Re.Lit];
  repeat split; try discriminate;
  intros _ t c c' M; apply lem in M; tauto.

End Spec.

(** ** Concrete inputs *)

Module Examples.

(** The scenario text of a public function, and the same text without
    its visibility marker. *)
Definition refresh_text : string :=
  "pub fn refresh(ctx: Context) -> ProgramResult {}".
Definition refresh_text_private : string :=
  "fn refresh(ctx: Context) -> ProgramResult {}".

Definition refresh_record (file_path : string) (is_public : bool) : FunctionInfo :=
  mkFunctionInfo "refresh" "" "fn refresh(ctx: Context) -> ProgramResult"
                 file_path 1 is_public [("ctx", "Context")] "ProgramResult".

(** A file with one private function. *)
Definition helper_text : string := "fn helper() {}".
Definition helper_record : FunctionInfo :=
  mkFunctionInfo "helper" "" "fn helper() -> ()" "lib.rs" 1 false [] "()".

(** A function whose parameter type has a generic argument list with a
    comma and a path that starts with [::]. *)
Definition generic_param_text : string := "pub fn f(x: Foo<A, ::std::X>) {}".
Definition generic_param_record : FunctionInfo :=
  mkFunctionInfo "f" "" "fn f(x: Foo<A, ::std::X>) -> ()" "lib.rs" 1 true
                 [("x", "Foo<A"); ("", ":std::X>")] "()".

(** Two structs without attributes: a configuration and a data struct. *)
Definition pool_config : StructInfo :=
  mkStructInfo "PoolConfig" "" [] [] "a.rs" 1 None.
Definition reserve_data : StructInfo :=
  mkStructInfo "ReserveData" "" [] [] "a.rs" 5 None.

(** A struct with the zero-copy attribute. *)
Definition reserve : StructInfo :=
  mkStructInfo "Reserve" "Holds reserve state" [("pad", "u8", "")]
               ["account(zero_copy)"] "a.rs" 1 None.

(** Two public functions, of the files [b.src] and [a.src]. *)
Definition fn_b : FunctionInfo :=
  mkFunctionInfo "run" "" "fn run() -> ()" "b.src" 1 true [] "()".
Definition fn_a : FunctionInfo :=
  mkFunctionInfo "stop" "" "fn stop() -> ()" "a.src" 1 true [] "()".

End Examples.

(** ** Lemmas on lists and strings *)

Section ListFacts.
Context {A B : Type}.

Lemma fold_left_app_flat_map (f : A -> list B) (l : list A) (init : list B) :
  fold_left (fun acc x => acc ++ f x) l init = init ++ flat_map f l.
Proof.
  revert init; induction l as [|x l IH]; intros init; simpl.
  - now rewrite app_nil_r.
  - rewrite IH. now rewrite <- app_assoc.
Qed.

Lemma filter_nil_iff (p : A -> bool) (l : list A) :
  filter p l = [] <-> forall x, In x l -> p x = false.
Proof.
  induction l as [|a l IH]; simpl.
  - split; [intros _ x [] | reflexivity].
  - destruct (p a) eqn:E; split.
    + discriminate.
    + intros H. specialize (H a (or_introl eq_refl)). congruence.
    + intros H x [<-|Hx]; [assumption | now apply IH].
    + intros H. apply IH. intros x Hx. apply H. now right.
Qed.

End ListFacts.

Section StringFacts.

Lemma append_nil_r (s : string) : (s ++ "")%string = s.
Proof. induction s; simpl; congruence. Qed.

Lemma append_assoc (a b c : string) :
  ((a ++ b) ++ c)%string = (a ++ (b ++ c))%string.
Proof. induction a; simpl; congruence. Qed.

Lemma length_append (a b : string) :
  String.length (a ++ b) = String.length a + String.length b.
Proof. induction a; simpl; congruence. Qed.

Lemma prefix_iff (p s : string) :
  String.prefix p s = true <-> exists r, s = (p ++ r)%string.
Proof.
  revert s; induction p as [|c p IH]; intros s.
  - destruct s; simpl; split; eauto.
  - destruct s as [|d s]; simpl.
    + split; [discriminate | intros [r Hr]; discriminate].
    + destruct (ascii_dec c d) as [->|Hne].
      * rewrite IH. split; intros [r Hr]; exists r; congruence.
      * split; [discriminate | intros [r Hr]; congruence].
Qed.

Lemma contains_iff (n s : string) :
  Py.contains n s = true <-> exists a b, s = (a ++ n ++ b)%string.
Proof.
  induction s as [|c s IH].
  - cbn [Py.contains]. rewrite orb_false_r, prefix_iff. split.
    + intros [r Hr]. now exists "", r.
    + intros [a [b H]]. destruct a; [now exists b | discriminate].
  - cbn [Py.contains]. rewrite orb_true_iff, prefix_iff, IH. split.
    + intros [[r Hr] | [a [b H]]].
      * now exists "", r.
      * exists (String c a), b. simpl. congruence.
    + intros [a [b H]]. destruct a as [|d a].
      * left. now exists b.
      * right. simpl in H. exists a, b. congruence.
Qed.

Lemma append_eq_append (a b x y : string) :
  (a ++ b)%string = (x ++ y)%string ->
  (exists d, a = (x ++ d)%string /\ y = (d ++ b)%string)
  \/ (exists d, x = (a ++ d)%string /\ b = (d ++ y)%string).
Proof.
  revert x; induction a as [|c a IH]; intros x H.
  - right. exists x. simpl in *. auto.
  - destruct x as [|d x].
    + left. exists (String c a). simpl in *. auto.
    + simpl in H. injection H as -> H. destruct (IH _ H) as [[e [-> ->]]|[e [-> ->]]].
      * left. now exists e.
      * right. now exists e.
Qed.

End StringFacts.

Section ContainsJoin.

Lemma no_space_inside (n a b : string) :
  Py.contains " " n = false -> n <> (a ++ " " ++ b)%string.
Proof.
  intros Hn H. assert (Py.contains " " n = true) as E.
  { apply contains_iff. now exists a, b. }
  congruence.
Qed.

Lemma contains_across_space (n x y : string) :
  n <> "" -> Py.contains " " n = false ->
  Py.contains n (x ++ " " ++ y) = Py.contains n x || Py.contains n y.
Proof.
  intros Hne Hsp.
  apply eq_true_iff_eq. rewrite orb_true_iff, !contains_iff. split.
  - intros [a [b H]].
    destruct (append_eq_append _ _ _ _ H) as [[d [-> Hd]]|[d [-> Hd]]].
    + destruct (append_eq_append _ _ _ _ Hd) as [[e [Hn He]]|[e [-> He]]].
      * destruct e as [|c e]; simpl in He.
        -- left. exists a, "". rewrite append_nil_r in Hn. subst.
           now rewrite append_nil_r.
        -- injection He as Hc _. subst c.
           exfalso. now apply (no_space_inside _ d e Hsp).
      * left. exists a, e. reflexivity.
    + destruct d as [|c d]; simpl in Hd.
      * destruct n as [|c n']; [congruence|].
        simpl in Hd. injection Hd as Hc _. subst c.
        exfalso. now apply (no_space_inside _ "" n' Hsp).
      * injection Hd as _ ->. right. now exists d, b.
  - intros [[a [b ->]]|[a [b ->]]].
    + exists a, (b ++ " " ++ y)%string. now rewrite !append_assoc.
    + exists (x ++ " " ++ a)%string, b. now rewrite !append_assoc.
Qed.

Lemma contains_join_space (n : string) (l : list string) :
  n <> "" -> Py.contains " " n = false ->
  Py.contains n (Py.join " " l) = existsb (Py.contains n) l.
Proof.
  intros Hne Hsp. induction l as [|x l IH].
  - simpl. rewrite orb_false_r. destruct n; [congruence | reflexivity].
  - destruct l as [|y l].
    + simpl. now rewrite orb_false_r.
    + change (Py.join " " (x :: y :: l))
        with (x ++ " " ++ Py.join " " (y :: l))%string.
      rewrite contains_across_space, IH by assumption. reflexivity.
Qed.

End ContainsJoin.

Section Generation.
Import DocumentationGenerator Spec.

Lemma is_zero_copy_attr (s : StructInfo) :
  is_zero_copy s = has_zero_copy_attr s.
Proof.
  unfold is_zero_copy, has_zero_copy_attr.
  apply contains_join_space; [discriminate | reflexivity].
Qed.

Lemma zero_copy_written (structs : list StructInfo) (out : files) :
  filter is_zero_copy structs <> [] ->
  generate_zero_copy_reference structs out
  = out ++ [("zero-copy-reference.md",
             Py.join "" (zero_copy_header (List.length (filter is_zero_copy structs))
                         ++ flat_map _generate_struct_section
                                     (filter is_zero_copy structs)))].
Proof.
  intros H. unfold generate_zero_copy_reference, _write_file.
  rewrite fold_left_app_flat_map.
  destruct (filter is_zero_copy structs); [congruence | reflexivity].
Qed.

Lemma append_category (s : StructInfo) (la ld lc lo : list StructInfo) :
  Dict.append (category_of s) s
    [ ("Account Structures", la); ("Data Structures", ld);
      ("Configuration Structures", lc); ("Other Structures", lo) ]
  = [ ("Account Structures", la ++ in_category "Account Structures" [s]);
      ("Data Structures", ld ++ in_category "Data Structures" [s]);
      ("Configuration Structures",
        lc ++ in_category "Configuration Structures" [s]);
      ("Other Structures", lo ++ in_category "Other Structures" [s]) ].
Proof.
  unfold in_category. cbn [filter]. unfold category_of.
  destruct (Py.contains "account" _);
    [|destruct (Py.contains "config" _); [|destruct (existsb _ _)]];
    simpl; now rewrite ?app_nil_r.
Qed.

(** The loop over the structs fills the four lists of [categories]. *)
Lemma categories_filled (structs la ld lc lo : list StructInfo) :
  fold_left (fun categories struct =>
               Dict.append (category_of struct) struct categories)
            structs
            [ ("Account Structures", la); ("Data Structures", ld);
              ("Configuration Structures", lc); ("Other Structures", lo) ]
  = [ ("Account Structures", la ++ in_category "Account Structures" structs);
      ("Data Structures", ld ++ in_category "Data Structures" structs);
      ("Configuration Structures",
        lc ++ in_category "Configuration Structures" structs);
      ("Other Structures", lo ++ in_category "Other Structures" structs) ].
Proof.
  revert la ld lc lo; induction structs as [|s structs IH]; intros.
  - simpl. now rewrite !app_nil_r.
  - cbn [fold_left]. rewrite append_category, IH.
    unfold in_category. rewrite <- !app_assoc, <- !filter_app. reflexivity.
Qed.

Lemma api_structures_rendered (structs : list StructInfo) :
  api_structures_content structs = render_categories dict_order structs.
Proof.
  unfold api_structures_content, categories0.
  rewrite (categories_filled structs [] [] [] []).
  unfold render_categories, dict_order. simpl.
  repeat match goal with
  | |- context [in_category ?c structs] =>
      destruct (in_category c structs); simpl
  end;
  rewrite ?fold_left_app_flat_map, ?app_nil_r; simpl;
    repeat (rewrite <- ?app_assoc; simpl); reflexivity.
Qed.

End Generation.

(** ** The order of paths *)

Section StringOrder.

Lemma ascii_compare_lt_trans (a b c : ascii) :
  Ascii.compare a b = Lt -> Ascii.compare b c = Lt -> Ascii.compare a c = Lt.
Proof.
  unfold Ascii.compare. rewrite !BinNat.N.compare_lt_iff.
  apply BinNat.N.lt_trans.
Qed.

Lemma compare_lt_cons (a b : ascii) (s t : string) :
  String.compare (String a s) (String b t) = Lt
  <-> Ascii.compare a b = Lt \/ (a = b /\ String.compare s t = Lt).
Proof.
  simpl. destruct (Ascii.compare a b) eqn:E.
  - apply Ascii.compare_eq_iff in E. subst. intuition congruence.
  - intuition.
  - split; [discriminate|]. intros [H|[-> H]]; [discriminate|].
    unfold Ascii.compare in E. rewrite BinNat.N.compare_refl in E. discriminate.
Qed.

Lemma compare_lt_trans (s1 s2 s3 : string) :
  String.compare s1 s2 = Lt -> String.compare s2 s3 = Lt ->
  String.compare s1 s3 = Lt.
Proof.
  revert s2 s3; induction s1 as [|a s1 IH]; intros [|b s2] [|c s3];
    try discriminate; try reflexivity.
  rewrite !compare_lt_cons.
  intros [H1|[-> H1]] [H2|[-> H2]].
  - left. eapply ascii_compare_lt_trans; eauto.
  - now left.
  - now left.
  - right. split; [reflexivity | eapply IH; eauto].
Qed.

Lemma ltb_trans (s1 s2 s3 : string) :
  String.ltb s1 s2 = true -> String.ltb s2 s3 = true -> String.ltb s1 s3 = true.
Proof.
  unfold String.ltb.
  destruct (String.compare s1 s2) eqn:E1; try discriminate.
  destruct (String.compare s2 s3) eqn:E2; try discriminate.
  now rewrite (compare_lt_trans _ _ _ E1 E2).
Qed.

Lemma ltb_irrefl (s : string) : String.ltb s s = false.
Proof.
  unfold String.ltb. destruct (String.compare s s) eqn:E; try reflexivity.
  pose proof (String.compare_antisym s s) as H. rewrite E in H. discriminate.
Qed.

Lemma not_ltb_neq_ltb (s1 s2 : string) :
  String.ltb s1 s2 = false -> s1 <> s2 -> String.ltb s2 s1 = true.
Proof.
  unfold String.ltb. rewrite (String.compare_antisym s2 s1).
  destruct (String.compare s1 s2) eqn:E; simpl; try congruence.
  apply String.compare_eq_iff in E. congruence.
Qed.

End StringOrder.

(** ** Dictionaries *)

Section DictFacts.
Context {V : Type}.
Implicit Types (d : Dict.t V) (k : string).

Lemma mem_In k d : Dict.mem k d = true <-> In k (map fst d).
Proof.
  induction d as [|[k' v] d IH]; simpl.
  - split; [discriminate | tauto].
  - rewrite orb_true_iff, String.eqb_eq, IH. tauto.
Qed.

Lemma get_None k d : Dict.get k d = None <-> ~ In k (map fst d).
Proof.
  induction d as [|[k' v] d IH]; simpl.
  - tauto.
  - destruct (String.eqb_spec k' k).
    + split; [discriminate | tauto].
    + rewrite IH. tauto.
Qed.

Lemma get_In k v d : NoDup (map fst d) -> (In (k, v) d <-> Dict.get k d = Some v).
Proof.
  induction d as [|[k' v'] d IH]; simpl; intros ND.
  - split; [tauto | discriminate].
  - inversion ND as [|? ? Hnotin ND']; subst.
    destruct (String.eqb_spec k' k) as [->|Hne].
    + split.
      * intros [E|Hin]; [congruence|].
        exfalso. apply Hnotin. now apply (in_map fst) in Hin.
      * intros E. left. congruence.
    + rewrite <- (IH ND'). split; [intros [E|?]; [congruence|assumption] | tauto].
Qed.

Lemma set_fresh k v d : Dict.mem k d = false -> Dict.set k v d = d ++ [(k, v)].
Proof.
  induction d as [|[k' v'] d IH]; simpl; [reflexivity|].
  destruct (String.eqb k' k); simpl; [discriminate|].
  intros H. now rewrite IH.
Qed.

Lemma get_app k d d' :
  Dict.get k (d ++ d') = match Dict.get k d with
                         | Some v => Some v
                         | None => Dict.get k d'
                         end.
Proof.
  induction d as [|[k' v'] d IH]; simpl; [reflexivity|].
  now destruct (String.eqb k' k).
Qed.

Lemma insert_perm (x : string * V) (l : list (string * V)) :
  Permutation (Dict.insert x l) (x :: l).
Proof.
  induction l as [|y l IH]; simpl; [reflexivity|].
  destruct (String.ltb (fst y) (fst x)); [|reflexivity].
  rewrite IH. apply perm_swap.
Qed.

Lemma sorted_items_perm d : Permutation (Dict.sorted_items d) d.
Proof.
  induction d as [|x d IH]; simpl; [reflexivity|].
  rewrite insert_perm. now constructor.
Qed.

Lemma insert_sorted (x : string * V) (l : list (string * V)) :
  ~ In (fst x) (map fst l) ->
  StronglySorted Dict.lt_key l -> StronglySorted Dict.lt_key (Dict.insert x l).
Proof.
  induction l as [|y l IH]; simpl; intros Hx Hs.
  - repeat constructor.
  - inversion Hs as [|? ? Hs' Hall]; subst.
    destruct (String.ltb (fst y) (fst x)) eqn:E.
    + constructor; [apply IH; tauto|].
      eapply Permutation_Forall; [symmetry; apply insert_perm|].
      now constructor.
    + assert (Dict.lt_key x y) as Hxy.
      { apply not_ltb_neq_ltb; [assumption | intuition congruence]. }
      constructor; [assumption|]. constructor; [assumption|].
      eapply Forall_impl; [|exact Hall].
      intros z Hz. unfold Dict.lt_key in *. eapply ltb_trans; eauto.
Qed.

Lemma sorted_items_sorted d :
  NoDup (map fst d) -> StronglySorted Dict.lt_key (Dict.sorted_items d).
Proof.
  induction d as [|x d IH]; simpl; intros ND; [constructor|].
  inversion ND as [|? ? Hnotin ND']; subst.
  apply insert_sorted; [|now apply IH].
  intros Hin. apply Hnotin.
  eapply Permutation_in; [|exact Hin].
  apply Permutation_map, sorted_items_perm.
Qed.

End DictFacts.

Section DictAppend.
Context {A : Type}.
Implicit Types (d : Dict.t (list A)) (k : string).

Lemma append_keys k (x : A) d : map fst (Dict.append k x d) = map fst d.
Proof.
  induction d as [|[k' l] d IH]; simpl; [reflexivity|].
  destruct (String.eqb k' k); simpl; congruence.
Qed.

Lemma get_append k k' (x : A) d :
  Dict.get k' (Dict.append k x d)
  = if String.eqb k k'
    then option_map (fun l => l ++ [x]) (Dict.get k d)
    else Dict.get k' d.
Proof.
  induction d as [|[k0 l] d IH]; simpl.
  - now destruct (String.eqb k k').
  - destruct (String.eqb_spec k0 k) as [->|Hne]; simpl.
    + destruct (String.eqb_spec k k'); [reflexivity|].
      reflexivity.
    + rewrite IH. destruct (String.eqb_spec k k') as [->|Hne'].
      * destruct (String.eqb_spec k0 k'); [congruence | reflexivity].
      * reflexivity.
Qed.

Lemma append_perm k (x : A) d :
  In k (map fst d) ->
  Permutation (flat_map snd (Dict.append k x d)) (x :: flat_map snd d).
Proof.
  induction d as [|[k' l] d IH]; simpl; [tauto|].
  destruct (String.eqb_spec k' k) as [->|Hne]; simpl; intros H.
  - rewrite <- app_assoc. simpl.
    rewrite <- Permutation_middle. reflexivity.
  - destruct H as [H|H]; [congruence|].
    rewrite (IH H). symmetry. apply Permutation_middle.
Qed.

End DictAppend.

(** ** Grouping the public functions by file *)

Section Grouping.
Import DocumentationGenerator Spec.

Lemma in_file_snoc (p : string) (l : list FunctionInfo) (f : FunctionInfo) :
  in_file p (l ++ [f])
  = in_file p l ++ (if String.eqb (f_file_path f) p then [f] else []).
Proof. unfold in_file. rewrite filter_app. reflexivity. Qed.

Lemma group_step_keeps (l : list FunctionInfo) (d : Dict.t (list FunctionInfo))
  (f : FunctionInfo) :
  groups_of l d -> groups_of (l ++ [f]) (group_step d f).
Proof.
  intros [ND Hget]. unfold group_step.
  destruct (Dict.mem (f_file_path f) d) eqn:Hmem; simpl.
  - split; [now rewrite append_keys|].
    intros p. rewrite get_append, in_file_snoc.
    destruct (String.eqb_spec (f_file_path f) p) as [<-|Hne].
    + rewrite Hget. apply mem_In in Hmem.
      destruct (Dict.get (f_file_path f) d) eqn:E; [|apply get_None in E; tauto].
      rewrite Hget in E. destruct (in_file (f_file_path f) l); [discriminate|].
      reflexivity.
    + rewrite app_nil_r. apply Hget.
  - assert (~ In (f_file_path f) (map fst d)) as Hnotin.
    { rewrite <- mem_In. congruence. }
    rewrite set_fresh by assumption. split.
    + rewrite append_keys, map_app. simpl.
      apply NoDup_app; [assumption | repeat constructor; tauto |].
      intros k Hk [<-|[]]. tauto.
    + intros p. rewrite get_append, !get_app, in_file_snoc. simpl.
      destruct (String.eqb_spec (f_file_path f) p) as [<-|Hne].
      * apply get_None in Hnotin. rewrite Hnotin. simpl.
        rewrite Hget in Hnotin. rewrite String.eqb_refl.
        destruct (in_file (f_file_path f) l); [reflexivity|discriminate].
      * rewrite app_nil_r, Hget.
        destruct (String.eqb_spec (f_file_path f) p); [congruence|].
        now destruct (in_file p l).
Qed.

Lemma group_fold (l l0 : list FunctionInfo) (d : Dict.t (list FunctionInfo)) :
  groups_of l0 d -> groups_of (l0 ++ l) (fold_left group_step l d).
Proof.
  revert l0 d; induction l as [|f l IH]; intros l0 d H; simpl.
  - now rewrite app_nil_r.
  - replace (l0 ++ f :: l) with ((l0 ++ [f]) ++ l) by now rewrite <- app_assoc.
    apply IH. now apply group_step_keeps.
Qed.

Lemma group_by_file_groups (l : list FunctionInfo) :
  groups_of l (group_by_file l).
Proof.
  apply (group_fold l [] []). split; [constructor | reflexivity].
Qed.

Lemma group_step_perm (d : Dict.t (list FunctionInfo)) (f : FunctionInfo) :
  Permutation (flat_map snd (group_step d f)) (f :: flat_map snd d).
Proof.
  unfold group_step. destruct (Dict.mem (f_file_path f) d) eqn:Hmem; simpl.
  - apply append_perm. now apply mem_In.
  - rewrite set_fresh by assumption.
    rewrite append_perm by (rewrite map_app; apply in_or_app; right; now left).
    rewrite flat_map_app. simpl. now rewrite app_nil_r.
Qed.

Lemma group_fold_perm (l : list FunctionInfo) (d : Dict.t (list FunctionInfo)) :
  Permutation (flat_map snd (fold_left group_step l d)) (flat_map snd d ++ l).
Proof.
  revert d; induction l as [|f l IH]; intros d; simpl.
  - now rewrite app_nil_r.
  - rewrite IH, group_step_perm. simpl. apply Permutation_middle.
Qed.

Lemma sorted_groups_perm (l : list FunctionInfo) :
  Permutation (flat_map snd (Dict.sorted_items (group_by_file l))) l.
Proof.
  transitivity (flat_map snd (group_by_file l)).
  - apply Permutation_flat_map, sorted_items_perm.
  - apply (group_fold_perm l []).
Qed.

Lemma function_reference_rendered (functions : list FunctionInfo) :
  function_reference_content functions
  = function_header (List.length (filter f_is_public functions))
    ++ render_groups (Dict.sorted_items (group_by_file (filter f_is_public functions))).
Proof.
  unfold function_reference_content, function_header, render_groups.
  generalize (Dict.sorted_items (group_by_file (filter f_is_public functions))).
  intros groups.
  match goal with |- fold_left _ _ ?h = _ => generalize h end.
  induction groups as [|g groups IH]; intros h; simpl.
  - now rewrite app_nil_r.
  - rewrite IH, fold_left_app_flat_map, <- !app_assoc. reflexivity.
Qed.

End Grouping.

(** ** The matcher *)

Section Matcher.
Import Re.

Lemma take_app_length (t r : string) :
  Py.take (String.length (t ++ r) - String.length r) (t ++ r) = t.
Proof.
  rewrite length_append, Nat.add_sub.
  induction t as [|c t IH]; simpl.
  - now destruct r.
  - now rewrite IH.
Qed.

(** A run that succeeds has gone through its continuation, after a match. *)
Lemma run_sound (r : regex) :
  forall k st res,
    run r k st = Some res ->
    exists t st',
      rest st = (t ++ rest st')%string
      /\ matches r t (caps st) (caps st')
      /\ k st' = Some res.
Proof.
  induction r as [|p|r1 IH1 r2 IH2|r1 IH1 r2 IH2|greedy r1 IH1|g r1 IH1];
    intros k st res H; cbn [run] in H.
  - exists "", st. repeat split; [constructor | assumption].
  - destruct st as [s c]; simpl in *. destruct s as [|a s]; [discriminate|].
    destruct (p a) eqn:E; [|discriminate].
    exists (String a ""), (mkState s c). repeat split; [now constructor | assumption].
  - apply IH1 in H as (t1 & st1 & E1 & M1 & H).
    apply IH2 in H as (t2 & st2 & E2 & M2 & H).
    exists (t1 ++ t2)%string, st2. split; [|split].
    + now rewrite E1, E2, append_assoc.
    + econstructor; eauto.
    + assumption.
  - destruct (run r1 k st) eqn:E.
    + injection H as <-. apply IH1 in E as (t & st' & ? & ? & ?).
      exists t, st'. repeat split; [assumption | now apply M_AltL | assumption].
    + apply IH2 in H as (t & st' & ? & ? & ?).
      exists t, st'. repeat split; [assumption | now apply M_AltR | assumption].
  - revert H. generalize (S (String.length (rest st))). intros n.
    revert st res. induction n as [|n IHn]; intros st res H.
    + exists "", st. repeat split; [constructor | assumption].
    + assert (forall res',
                 run r1 (fun st' =>
                           if String.length (rest st') <? String.length (rest st)
                           then star_loop (run r1) greedy k n st'
                           else None) st = Some res' ->
                 exists t st',
                   rest st = (t ++ rest st')%string
                   /\ matches (Star greedy r1) t (caps st) (caps st')
                   /\ k st' = Some res') as Hiter.
      { intros res' E. apply IH1 in E as (t1 & st1 & E1 & M1 & E).
        destruct (String.length (rest st1) <? String.length (rest st)); [|discriminate].
        apply IHn in E as (t2 & st2 & E2 & M2 & E).
        exists (t1 ++ t2)%string, st2. split; [|split].
        - now rewrite E1, E2, append_assoc.
        - econstructor; eauto.
        - assumption. }
      assert (forall res', k st = Some res' ->
                 exists t st',
                   rest st = (t ++ rest st')%string
                   /\ matches (Star greedy r1) t (caps st) (caps st')
                   /\ k st' = Some res') as Hstop.
      { intros res' E. exists "", st. repeat split; [constructor | assumption]. }
      cbn [star_loop] in H. destruct greedy.
      * match type of H with
        | match ?x with _ => _ end = _ => destruct x eqn:E
        end.
        -- injection H as <-. now apply Hiter.
        -- now apply Hstop.
      * destruct (k st) eqn:E.
        -- injection H as <-. now apply Hstop.
        -- now apply Hiter.
  - apply IH1 in H as (t & st' & E & M & H).
    rewrite E, take_app_length in H.
    exists t, (mkState (rest st') ((g, t) :: caps st')).
    repeat split; [assumption | now constructor | assumption].
Qed.

End Matcher.

Section Matches.
Import Re.

Lemma group_cons_ne (g g' t : string) (c : captures) :
  group ((g', t) :: c) g <> None \/ group ((g', t) :: c) g = group c g.
Proof. simpl. destruct (String.eqb g' g); [left; discriminate | now right]. Qed.

(** Groups keep a value once they have one, and the groups of [binds r]
    have one after a match of [r]. *)
Lemma matches_binds (r : regex) (t : string) (c c' : captures) :
  matches r t c c' ->
  (forall g, group c g <> None -> group c' g <> None)
  /\ (forall g, In g (binds r) -> group c' g <> None).
Proof.
  induction 1 as [c|p a c Hp|r1 r2 t1 t2 c c1 c2 _ [K1 B1] _ [K2 B2]
                 |r1 r2 t c c' _ [K B]|r1 r2 t c c' _ [K B]
                 |g r c|g r t1 t2 c c1 c2 _ [K1 B1] _ [K2 B2]
                 |g r t c c' _ [K B]]; simpl;
    try (split; [auto | tauto]).
  - split; [auto|]. intros g Hg. apply in_app_or in Hg as [Hg|Hg]; auto.
  - split.
    + intros g0 Hg0. destruct (String.eqb g g0); [discriminate | auto].
    + intros g0 [->|Hg0].
      * now rewrite String.eqb_refl.
      * destruct (String.eqb g g0); [discriminate | auto].
Qed.

(** The texts held by a group. *)
Lemma matches_captured (P : string -> Prop) (g : string) (r : regex)
  (t : string) (c c' : captures) :
  matches r t c c' ->
  captured P g r ->
  (forall x, group c g = Some x -> P x) ->
  forall x, group c' g = Some x -> P x.
Proof.
  induction 1 as [c|p a c Hp|r1 r2 t1 t2 c c1 c2 _ IH1 _ IH2
                 |r1 r2 t c c' _ IH|r1 r2 t c c' _ IH
                 |g0 r c|g0 r t1 t2 c c1 c2 _ IH1 _ IH2
                 |g0 r t c c' M IH]; simpl; intros HP Hc; auto.
  - destruct HP. auto.
  - destruct HP. auto.
  - destruct HP. auto.
  - destruct HP as [Hhere Hin]. intros x.
    destruct (String.eqb_spec g0 g) as [E|E].
    + intros [= <-]. eapply Hhere; eauto.
    + auto.
Qed.

Lemma matches_chr (p : ascii -> bool) (t : string) (c c' : captures) :
  matches (Chr p) t c c' -> exists a, t = String a "" /\ p a = true /\ c' = c.
Proof. inversion 1; subst. eauto. Qed.

Lemma matches_star_chr (p : ascii -> bool) (greedy : bool) (t : string)
  (c c' : captures) :
  matches (Star greedy (Chr p)) t c c' -> all_chars p t /\ c' = c.
Proof.
  remember (Star greedy (Chr p)) as r eqn:Er. induction 1; try discriminate.
  - now split.
  - injection Er as -> ->.
    match goal with H : matches (Chr p) _ _ _ |- _ =>
      apply matches_chr in H as (a & -> & Hp & ->) end.
    destruct (IHmatches2 eq_refl) as [Hall ->]. simpl. auto.
Qed.

(** [[p]+] matches a non-empty text of characters of [p]. *)
Lemma matches_plus_chr (p : ascii -> bool) (t : string) (c c' : captures) :
  matches (Plus (Chr p)) t c c' -> t <> "" /\ all_chars p t /\ c' = c.
Proof.
  unfold Plus. inversion 1 as [| |r1 r2 t1 t2 c0 c1 c2 M1 M2| | | | |]; subst.
  apply matches_chr in M1 as (a & -> & Hp & ->).
  apply matches_star_chr in M2 as [Hall ->].
  simpl. repeat split; [discriminate | assumption | assumption].
Qed.

Lemma match_at_sound (r : regex) (pos : nat) (s : string) (m : match_obj) :
  match_at r pos s = Some m -> exists t, matches r t [] (m_groups m).
Proof.
  unfold match_at. destruct (run r _ _) as [st|] eqn:E; [|discriminate].
  intros [= <-]. apply run_sound in E as (t & st' & _ & M & [= ->]).
  now exists t.
Qed.

Lemma scan_sound (r : regex) (s : string) :
  forall skip pos m,
    In m (scan r skip pos s) -> exists t, matches r t [] (m_groups m).
Proof.
  induction s as [|a s IH]; intros skip pos m; destruct skip; simpl;
    try (intros []); try apply IH.
  - destruct (match_at r pos "") as [m0|] eqn:E; [|intros []].
    intros [<-|[]]. eapply match_at_sound; eauto.
  - destruct (match_at r pos (String a s)) as [m0|] eqn:E; [|apply IH].
    intros [<-|Hin]; [eapply match_at_sound; eauto | eapply IH; eauto].
Qed.

Lemma finditer_sound (r : regex) (s : string) (m : match_obj) :
  In m (finditer r s) -> exists t, matches r t [] (m_groups m).
Proof. apply scan_sound. Qed.

Lemma search_sound (r : regex) (s : string) (m : match_obj) :
  search r s = Some m -> exists t, matches r t [] (m_groups m).
Proof.
  unfold search. generalize 0. induction s as [|a s IH]; intros pos; simpl;
    destruct (match_at r pos _) eqn:E;
    try (intros [= <-]; eapply match_at_sound; eauto); try discriminate.
  apply IH.
Qed.

(** A group of [binds r] can be read as a string after a match. *)
Lemma group_str_bound (r : regex) (t : string) (m : match_obj) (g : string) :
  matches r t [] (m_groups m) -> In g (binds r) ->
  exists x, group (m_groups m) g = Some x /\ group_str m g = Ok x.
Proof.
  intros M Hg. apply matches_binds in M as [_ B]. specialize (B g Hg).
  unfold group_str. destruct (group (m_groups m) g) as [x|]; [eauto | congruence].
Qed.

Lemma group_captured (P : string -> Prop) (r : regex) (t : string)
  (m : match_obj) (g x : string) :
  matches r t [] (m_groups m) -> captured P g r ->
  group (m_groups m) g = Some x -> P x.
Proof.
  intros M HP. eapply matches_captured; eauto. discriminate.
Qed.

End Matches.

Section Results.

Lemma mapM_ok {A B : Type} (f : A -> result B) (Q : B -> Prop) (l : list A) :
  (forall a, In a l -> exists b, f a = Ok b /\ Q b) ->
  exists bs, mapM f l = Ok bs /\ List.length bs = List.length l /\ Forall Q bs.
Proof.
  induction l as [|a l IH]; intros H; simpl.
  - exists []. auto.
  - destruct (H a (or_introl eq_refl)) as (b & -> & Hb).
    destruct IH as (bs & -> & Hlen & Hall); [intros; apply H; now right|].
    exists (b :: bs). simpl. auto.
Qed.

End Results.

(** ** The extraction engine never fails *)

Section Extraction.
Import Re RustDocExtractor Spec.

Lemma all_chars_lstrip (p q : ascii -> bool) (s : string) :
  all_chars p s -> all_chars p (Py.lstrip_by q s).
Proof.
  induction s as [|c s IH]; simpl; [trivial|].
  intros [Hc Hs]. destruct (q c); simpl; auto.
Qed.

Lemma all_chars_rstrip (p q : ascii -> bool) (s : string) :
  all_chars p s -> all_chars p (Py.rstrip_by q s).
Proof.
  induction s as [|c s IH]; simpl; [trivial|].
  intros [Hc Hs]. specialize (IH Hs).
  destruct (Py.rstrip_by q s); [destruct (q c)|]; simpl; auto.
Qed.

Lemma all_chars_strip (p : ascii -> bool) (s : string) :
  all_chars p s -> all_chars p (Py.strip s).
Proof. intros H. now apply all_chars_rstrip, all_chars_lstrip. Qed.

Lemma all_chars_not_contains (p : ascii -> bool) (a : ascii) (s : string) :
  p a = false -> all_chars p s -> Py.contains (String a "") s = false.
Proof.
  intros Ha. induction s as [|c s IH]; [reflexivity|].
  intros [Hc Hs]. cbn [Py.contains]. rewrite (IH Hs), orb_false_r.
  simpl. destruct (ascii_dec a c); [congruence | reflexivity].
Qed.

Lemma field_name_captured :
  captured (fun t => t <> "") "name" field_pattern.
Proof. captured_by matches_plus_chr. Qed.

Lemma field_type_captured :
  captured (all_chars field_type_char) "type" field_pattern.
Proof. captured_by matches_plus_chr. Qed.

Lemma struct_name_captured :
  captured (fun t => t <> "") "name" struct_pattern.
Proof. captured_by matches_plus_chr. Qed.

Lemma func_name_captured :
  captured (fun t => t <> "") "name" func_pattern.
Proof. captured_by matches_plus_chr. Qed.

Lemma extract_fields_ok (fields_text : string) :
  exists fields,
    _extract_fields fields_text = Ok fields
    /\ List.length fields = List.length (finditer field_pattern fields_text)
    /\ Forall field_ok fields.
Proof.
  unfold _extract_fields. apply mapM_ok. intros m Hm.
  apply finditer_sound in Hm as [t M].
  destruct (group_str_bound _ _ _ "name" M) as (name & Gn & ->);
    [cbv; tauto|].
  destruct (group_str_bound _ _ _ "type" M) as (ty & Gt & ->);
    [cbv; tauto|].
  eexists. split; [reflexivity|]. unfold field_ok. simpl.
  pose proof (group_captured _ _ _ _ _ _ M field_name_captured Gn) as Hn.
  pose proof (group_captured _ _ _ _ _ _ M field_type_captured Gt) as Ht.
  split; [assumption|].
  assert (all_chars field_type_char (Py.rstrip_chars "," (Py.strip ty))) as Hall.
  { now apply all_chars_rstrip, all_chars_strip. }
  split; apply (all_chars_not_contains field_type_char);
    solve [reflexivity | assumption].
Qed.

Lemma attrs_ok (attrs_text : string) :
  exists attrs,
    mapM (fun a => t <- group_str a "1" ;; Ok (Py.strip t))
         (finditer attr_pattern attrs_text) = Ok attrs.
Proof.
  destruct (mapM_ok (fun a => t <- group_str a "1" ;; Ok (Py.strip t))
                    (fun _ => True) (finditer attr_pattern attrs_text))
    as (attrs & E & _); [|eauto].
  intros m Hm. apply finditer_sound in Hm as [t M].
  destruct (group_str_bound _ _ _ "1" M) as (x & _ & ->); [cbv; tauto|].
  simpl. eauto.
Qed.

Lemma find_size_calculation_ok (content struct_name : string) :
  exists size_calc, _find_size_calculation content struct_name = Ok size_calc.
Proof.
  unfold _find_size_calculation.
  destruct (search (impl_pattern struct_name) content) as [m|] eqn:E; [|eauto].
  apply search_sound in E as [t M].
  destruct (group_str_bound _ _ _ "1" M) as (x & _ & ->).
  - unfold impl_pattern. simpl. rewrite ?in_app_iff. simpl. tauto.
  - simpl. eauto.
Qed.

Lemma struct_of_match_ok (content file_path : string) (m : match_obj) :
  In m (finditer struct_pattern content) ->
  exists s, struct_of_match content file_path m = Ok s /\ struct_ok s.
Proof.
  intros Hm. apply finditer_sound in Hm as [t M]. unfold struct_of_match.
  destruct (group_str_bound _ _ _ "attrs" M) as (a & _ & ->); [cbv; tauto|].
  cbn [bind]. destruct (attrs_ok a) as (attrs & ->). cbn [bind].
  destruct (group_str_bound _ _ _ "name" M) as (name & Gn & ->); [cbv; tauto|].
  cbn [bind].
  destruct (group_str_bound _ _ _ "fields" M) as (ft & _ & ->); [cbv; tauto|].
  cbn [bind]. destruct (extract_fields_ok ft) as (fields & -> & _ & Hf).
  cbn [bind]. destruct (find_size_calculation_ok content name) as (sc & ->).
  cbn [bind]. eexists. split; [reflexivity|]. split; simpl; [|assumption].
  exact (group_captured _ _ _ _ _ _ M struct_name_captured Gn).
Qed.

Lemma function_of_match_ok (content file_path : string) (m : match_obj) :
  In m (finditer func_pattern content) ->
  exists f, function_of_match content file_path m = Ok f /\ f_name f <> "".
Proof.
  intros Hm. apply finditer_sound in Hm as [t M]. unfold function_of_match.
  destruct (group_str_bound _ _ _ "name" M) as (name & Gn & ->); [cbv; tauto|].
  cbn [bind]. eexists. split; [reflexivity|]. simpl.
  exact (group_captured _ _ _ _ _ _ M func_name_captured Gn).
Qed.

Lemma extract_structs_ok (content file_path : string) (self : t) :
  exists l,
    _extract_structs content file_path self
    = Returned (mk (structs self ++ l) (functions self))
    /\ List.length l = List.length (finditer struct_pattern content)
    /\ Forall struct_ok l.
Proof.
  unfold _extract_structs.
  pose proof (struct_of_match_ok content file_path) as H.
  revert self H. generalize (finditer struct_pattern content) as ms.
  induction ms as [|m ms IH]; intros self H; simpl.
  - exists []. rewrite app_nil_r. destruct self; auto.
  - destruct (H m (or_introl eq_refl)) as (s & -> & Hs).
    destruct (IH (mk (structs self ++ [s]) (functions self))) as (l & -> & Hlen & Hall).
    { intros; apply H; now right. }
    exists (s :: l). simpl. rewrite <- app_assoc. simpl. auto.
Qed.

Lemma extract_functions_ok (content file_path : string) (self : t) :
  exists l,
    _extract_functions content file_path self
    = Returned (mk (structs self) (functions self ++ l))
    /\ List.length l = List.length (finditer func_pattern content)
    /\ Forall (fun f => f_name f <> "") l.
Proof.
  unfold _extract_functions.
  pose proof (function_of_match_ok content file_path) as H.
  revert self H. generalize (finditer func_pattern content) as ms.
  induction ms as [|m ms IH]; intros self H; simpl.
  - exists []. rewrite app_nil_r. destruct self; auto.
  - destruct (H m (or_introl eq_refl)) as (f & -> & Hf).
    destruct (IH (mk (structs self) (functions self ++ [f]))) as (l & -> & Hlen & Hall).
    { intros; apply H; now right. }
    exists (f :: l). simpl. rewrite <- app_assoc. simpl. auto.
Qed.

End Extraction.

(** ** Cleaning a doc comment *)

Section Cleaning.
Import RustDocExtractor Spec.

Lemma length_lstrip (p : ascii -> bool) (s : string) :
  String.length (Py.lstrip_by p s) <= String.length s.
Proof.
  induction s as [|c s IH]; simpl; [lia|]. destruct (p c); simpl; lia.
Qed.

Lemma length_rstrip (p : ascii -> bool) (s : string) :
  String.length (Py.rstrip_by p s) <= String.length s.
Proof.
  induction s as [|c s IH]; simpl; [lia|].
  destruct (Py.rstrip_by p s); [destruct (p c)|]; simpl in *; lia.
Qed.

Lemma length_strip (s : string) :
  String.length (Py.strip s) <= String.length s.
Proof.
  unfold Py.strip. etransitivity; [apply length_rstrip | apply length_lstrip].
Qed.

Lemma length_drop (n : nat) (s : string) :
  String.length (Py.drop n s) = String.length s - n.
Proof.
  revert s; induction n as [|n IH]; intros [|c s]; simpl; auto with arith.
Qed.

Lemma length_prefix (p s : string) :
  String.prefix p s = true -> String.length p <= String.length s.
Proof.
  rewrite prefix_iff. intros [r ->]. rewrite length_append. lia.
Qed.

Lemma weight_app (l1 l2 : list string) : weight (l1 ++ l2) = weight l1 + weight l2.
Proof. induction l1; simpl; lia. Qed.

Lemma weight_split (c : ascii) (s : string) :
  weight (Py.split c s) = S (String.length s).
Proof.
  induction s as [|a s IH]; simpl; [reflexivity|].
  destruct (Ascii.eqb a c); simpl; [lia|].
  destruct (Py.split c s); simpl in *; lia.
Qed.

Lemma length_join (c : ascii) (l : list string) :
  l <> [] -> S (String.length (Py.join (String c "") l)) = weight l.
Proof.
  induction l as [|x l IH]; [congruence|]. intros _.
  destruct l as [|y l].
  - simpl. lia.
  - change (Py.join (String c "") (x :: y :: l))
      with (x ++ String c (Py.join (String c "") (y :: l)))%string.
    rewrite length_append. cbn [String.length].
    specialize (IH ltac:(discriminate)). cbn [weight] in *. lia.
Qed.

Lemma clean_line_acc (acc : list string) (line : string) :
  _clean_line acc line = acc ++ cleaned_line line.
Proof.
  unfold cleaned_line, _clean_line.
  destruct (Py.startswith "///" _); [reflexivity|].
  destruct (Py.startswith "//!" _); [reflexivity | now rewrite app_nil_r].
Qed.

Lemma cleaned_lines_flat_map (lines : list string) :
  fold_left _clean_line lines [] = flat_map cleaned_line lines.
Proof.
  rewrite <- (app_nil_l (flat_map _ _)). generalize (@nil string) as acc.
  induction lines as [|l lines IH]; intros acc; simpl.
  - now rewrite app_nil_r.
  - rewrite IH, clean_line_acc, <- app_assoc. reflexivity.
Qed.

(** A line that is kept loses its three-character leader. *)
Lemma cleaned_line_weight (line : string) :
  cleaned_line line = []
  \/ weight (cleaned_line line) + 3 <= S (String.length line).
Proof.
  unfold cleaned_line, _clean_line.
  assert (forall p, Py.startswith p (Py.strip line) = true ->
                    String.length p = 3 ->
                    weight ([] ++ [Py.strip (Py.drop 3 (Py.strip line))]) + 3
                    <= S (String.length line)) as H.
  { intros p Hp Hlen. apply length_prefix in Hp. cbn [app weight].
    pose proof (length_strip (Py.drop 3 (Py.strip line))) as H1.
    rewrite length_drop in H1. pose proof (length_strip line). lia. }
  destruct (Py.startswith "///" _) eqn:E1; [right; now apply (H "///")|].
  destruct (Py.startswith "//!" _) eqn:E2; [right; now apply (H "//!")|].
  now left.
Qed.

Lemma cleaned_lines_weight (lines : list string) :
  flat_map cleaned_line lines = []
  \/ weight (flat_map cleaned_line lines) + 3 <= weight lines.
Proof.
  induction lines as [|l lines IH]; simpl; [now left|].
  rewrite weight_app.
  destruct (cleaned_line_weight l) as [->|Hl]; simpl.
  - destruct IH as [->|IH]; [now left | right; lia].
  - right. destruct IH as [->|IH]; simpl; lia.
Qed.

(** Cleaning gives the empty string or a strictly shorter one. *)
Lemma clean_shorter (s : string) :
  _clean_doc_comment s = ""
  \/ String.length (_clean_doc_comment s) < String.length s.
Proof.
  unfold _clean_doc_comment. destruct (negb (Py.truthy s)); [now left|].
  rewrite cleaned_lines_flat_map.
  destruct (cleaned_lines_weight (Py.split Py.NL (Py.strip s))) as [->|H].
  - now left.
  - right. rewrite weight_split in H. pose proof (length_strip s) as Hs.
    destruct (flat_map cleaned_line _) as [|x l] eqn:E.
    + simpl. simpl in H. lia.
    + rewrite <- E in *. assert (flat_map cleaned_line
          (Py.split Py.NL (Py.strip s)) <> []) as Hne by (rewrite E; discriminate).
      apply (length_join Py.NL) in Hne. lia.
Qed.

End Cleaning.

(** ** The properties of the specification *)

Section Claims.
Import Re RustDocExtractor DocumentationGenerator Spec Examples.

(** C1 (the statistic of the index counts every function).  For a file
    whose only function is private, the index reports one documented
    function, while no function is public and the function reference
    reports zero public functions: the functions statistic is the number of
    all extracted functions, not of the public ones. *)
Theorem index_counts_private_functions (timestamp : string) :
  _extract_functions helper_text "lib.rs" init = Returned (mk [] [helper_record])
  /\ List.length (filter f_is_public [helper_record]) = 0
  /\ nth 5 (index_content timestamp [] [helper_record]) ""
     = nl "- **Functions documented**: 1"
  /\ nth 2 (function_reference_content [helper_record]) ""
     = nl "Total public functions: **0**"
  /\ forall structs functions,
       nth 5 (index_content timestamp structs functions) ""
       = nl ("- **Functions documented**: "
             ++ Py.str_of_nat (List.length functions)).
Proof.
  split; [|split; [|split; [|split]]];
    try (intros structs functions); reflexivity.
Qed.

(** C2, as stated, fails: with the categories in the order of the
    classification rules the configuration struct would be rendered before
    the data struct, and the structures reference renders it after. *)
Lemma api_structures_not_in_rule_order :
  api_structures_content [pool_config; reserve_data]
  <> render_categories rule_order [pool_config; reserve_data].
Proof. vm_compute. discriminate. Qed.

(** C2, amended: the structures reference renders one heading per
    non-empty category in the order Account, Data, Configuration, Other
    (the order of the keys of [categories]), each followed by the sections
    of its structs in extraction order; a struct's category is decided by
    the rules Account, Configuration, Data, Other, first match wins. *)
Theorem api_structures_in_dict_order (structs : list StructInfo) (out : files) :
  api_structures_content structs = render_categories dict_order structs
  /\ generate_api_structures structs out
     = out ++ [("api-structures.md",
                Py.join "" (render_categories dict_order structs))].
Proof.
  split.
  - apply api_structures_rendered.
  - unfold generate_api_structures, _write_file.
    now rewrite api_structures_rendered.
Qed.

(** C3, as stated, fails: cleaning the doc block [/// Holds reserve state]
    gives [Holds reserve state], and cleaning that again gives the empty
    string; a block whose text itself starts with a leader loses one leader
    at each cleaning. *)
Lemma clean_not_idempotent :
  _clean_doc_comment (_clean_doc_comment "/// Holds reserve state")
  <> _clean_doc_comment "/// Holds reserve state"
  /\ _clean_doc_comment "Holds reserve state" <> "Holds reserve state"
  /\ _clean_doc_comment (_clean_doc_comment "/// /// a")
     <> _clean_doc_comment "/// /// a".
Proof. repeat split; vm_compute; discriminate. Qed.

(** C3, amended: cleaning the output of cleaning yields the same result
    exactly when that output is the empty string. *)
Theorem clean_twice_iff_empty (s : string) :
  _clean_doc_comment (_clean_doc_comment s) = _clean_doc_comment s
  <-> _clean_doc_comment s = "".
Proof.
  split.
  - intros H. destruct (clean_shorter (_clean_doc_comment s)) as [E|E].
    + congruence.
    + rewrite H in E. lia.
  - intros ->. reflexivity.
Qed.

(** C4, as stated, fails: the function scan of a parameter list whose
    type has a generic argument that starts with [::] yields a parameter
    with the empty name. *)
Lemma parameter_with_empty_name :
  _extract_functions generic_param_text "lib.rs" init
  = Returned (mk [] [generic_param_record])
  /\ In ("", ":std::X>") (f_parameters generic_param_record)
  /\ _extract_parameters ": u8" = [("", "u8")].
Proof. repeat split; vm_compute; auto. Qed.

(** C4, amended: for every input text, every extracted struct and every
    extracted function has a non-empty name, and no field of an extracted
    struct has an empty name (nothing is said of parameter names). *)
Theorem extracted_names_nonempty (content file_path : string) :
  exists ss fs,
    _extract_structs content file_path init = Returned (mk ss [])
    /\ _extract_functions content file_path init = Returned (mk [] fs)
    /\ Forall (fun s => s_name s <> ""
                        /\ Forall (fun field => fst (fst field) <> "") (s_fields s)) ss
    /\ Forall (fun f => f_name f <> "") fs.
Proof.
  destruct (extract_structs_ok content file_path init) as (ss & Es & _ & Hs).
  destruct (extract_functions_ok content file_path init) as (fs & Ef & _ & Hf).
  exists ss, fs. repeat split; try assumption.
  eapply Forall_impl; [|exact Hs].
  intros s [Hn Hfields]. split; [assumption|].
  eapply Forall_impl; [|exact Hfields]. intros field Hfield. apply Hfield.
Qed.

(** C5: the function reference reports the number of public records, and
    its sections are those of the public records, each once: the functions
    of the rendered groups are a rearrangement of the public input
    records. *)
Theorem function_reference_public_only (functions : list FunctionInfo) :
  let public_functions := filter f_is_public functions in
  let groups := Dict.sorted_items (group_by_file public_functions) in
  function_reference_content functions
  = function_header (List.length public_functions) ++ render_groups groups
  /\ Permutation (flat_map snd groups) public_functions
  /\ List.length (flat_map snd groups) = List.length public_functions
  /\ forall f, In f (flat_map snd groups)
               <-> In f functions /\ f_is_public f = true.
Proof.
  intros public_functions groups.
  pose proof (sorted_groups_perm public_functions) as HP.
  split; [apply function_reference_rendered|].
  split; [exact HP|]. split; [now apply Permutation_length|].
  intros f. unfold public_functions in HP. rewrite <- filter_In. split.
  - apply Permutation_in. exact HP.
  - apply Permutation_in. symmetry. exact HP.
Qed.

(** C6: the groups of the function reference are in strictly increasing
    lexicographic order of their paths, there is one group per path of a
    public function, and the functions of a group are the public functions
    of that path in extraction order; functions of [b.src] and [a.src]
    render with the [a.src] group first. *)
Theorem function_groups_sorted_by_path (functions : list FunctionInfo) :
  let public_functions := filter f_is_public functions in
  let groups := Dict.sorted_items (group_by_file public_functions) in
  function_reference_content functions
  = function_header (List.length public_functions) ++ render_groups groups
  /\ StronglySorted Dict.lt_key groups
  /\ (forall p, In p (map fst groups)
                <-> exists f, In f public_functions /\ f_file_path f = p)
  /\ (forall p g, In (p, g) groups -> g = in_file p public_functions)
  /\ Dict.sorted_items (group_by_file [fn_b; fn_a])
     = [("a.src", [fn_a]); ("b.src", [fn_b])].
Proof.
  intros public_functions groups.
  destruct (group_by_file_groups public_functions) as [ND Hget].
  assert (forall p g, In (p, g) groups
                      <-> Dict.get p (group_by_file public_functions) = Some g) as Hin.
  { intros p g. rewrite <- get_In by assumption. split; apply Permutation_in.
    - apply sorted_items_perm.
    - symmetry. apply sorted_items_perm. }
  split; [apply function_reference_rendered|].
  split; [now apply sorted_items_sorted|].
  split; [|split; [|reflexivity]].
  - intros p. split.
    + intros Hp. apply in_map_iff in Hp as ([p' g] & <- & Hg). simpl.
      apply Hin in Hg. rewrite Hget in Hg.
      destruct (in_file p' public_functions) as [|f l] eqn:E; [discriminate|].
      assert (In f (in_file p' public_functions)) as Hf by (rewrite E; now left).
      apply filter_In in Hf as [Hf Hp]. apply String.eqb_eq in Hp. eauto.
    + intros (f & Hf & <-).
      assert (In f (in_file (f_file_path f) public_functions)) as Hf'.
      { apply filter_In. split; [assumption | apply String.eqb_refl]. }
      destruct (in_file (f_file_path f) public_functions) as [|f0 l] eqn:E; [destruct Hf'|].
      apply in_map_iff. exists (f_file_path f, f0 :: l). split; [reflexivity|].
      apply Hin. rewrite Hget, E. reflexivity.
  - intros p g Hg. apply Hin in Hg. rewrite Hget in Hg.
    destruct (in_file p public_functions); congruence.
Qed.

(** C7: when no attribute of any struct contains the zero-copy marker,
    the zero-copy reference writes nothing (the output directory is left
    as it was); when some struct has such an attribute, it writes the one
    file [zero-copy-reference.md] with the heading, the count of the
    qualifying structs and one section for each of them. *)
Theorem zero_copy_reference_skipped_or_written
  (structs : list StructInfo) (out : files) :
  ((forall s a, In s structs -> In a (s_attributes s) ->
                Py.contains "account(zero_copy)" a = false) ->
   generate_zero_copy_reference structs out = out)
  /\ ((exists s a, In s structs /\ In a (s_attributes s)
                   /\ Py.contains "account(zero_copy)" a = true) ->
      generate_zero_copy_reference structs out
      = out ++ [("zero-copy-reference.md",
                 Py.join ""
                   (zero_copy_header
                      (List.length (filter has_zero_copy_attr structs))
                    ++ flat_map _generate_struct_section
                                (filter has_zero_copy_attr structs)))]).
Proof.
  assert (filter is_zero_copy structs = filter has_zero_copy_attr structs) as E.
  { apply filter_ext. apply is_zero_copy_attr. }
  split.
  - intros H. unfold generate_zero_copy_reference.
    assert (filter is_zero_copy structs = []) as ->; [|reflexivity].
    apply filter_nil_iff. intros s Hs. rewrite is_zero_copy_attr.
    unfold has_zero_copy_attr.
    destruct (existsb _ _) eqn:Ex; [|reflexivity].
    apply existsb_exists in Ex as (a & Ha & Hc). rewrite (H s a Hs Ha) in Hc.
    discriminate.
  - intros (s & a & Hs & Ha & Hc). rewrite <- E. apply zero_copy_written.
    intros Hnil. rewrite filter_nil_iff in Hnil. specialize (Hnil s Hs).
    rewrite is_zero_copy_attr in Hnil. unfold has_zero_copy_attr in Hnil.
    assert (existsb (Py.contains "account(zero_copy)") (s_attributes s) = true).
    { apply existsb_exists. eauto. }
    congruence.
Qed.

(** The two cases on a collection without and on one with a zero-copy
    struct. *)
Lemma zero_copy_reference_cases :
  generate_zero_copy_reference [pool_config; reserve_data] [] = []
  /\ map fst (generate_zero_copy_reference [pool_config; reserve] [])
     = ["zero-copy-reference.md"].
Proof.
  split.
  - apply (zero_copy_reference_skipped_or_written [pool_config; reserve_data] []).
    intros s a [<-|[<-|[]]] [].
  - rewrite (proj2 (zero_copy_reference_skipped_or_written [pool_config; reserve] [])).
    + reflexivity.
    + exists reserve, "account(zero_copy)". simpl. auto.
Defined.

(** C8: the function scan of the scenario text yields exactly one
    record, public, with the parameter [(ctx, Context)] and the return type
    [ProgramResult]; without the visibility marker the record is not
    public, and the function reference has no group and no section. *)
Theorem refresh_scenario (file_path : string) :
  _extract_functions refresh_text file_path init
  = Returned (mk [] [refresh_record file_path true])
  /\ f_is_public (refresh_record file_path true) = true
  /\ f_parameters (refresh_record file_path true) = [("ctx", "Context")]
  /\ f_return_type (refresh_record file_path true) = "ProgramResult"
  /\ _extract_functions refresh_text_private file_path init
     = Returned (mk [] [refresh_record file_path false])
  /\ function_reference_content [refresh_record file_path false]
     = function_header 0.
Proof. repeat split; vm_compute; reflexivity. Qed.

(** C9: on every text the struct scan and the function scan return, each
    with one record per match of its pattern appended to its collection and
    nothing else changed, and the warning of a failed file is not given. *)
Theorem extraction_never_raises (content file_path : string) (self : t) :
  (exists l,
      _extract_structs content file_path self
      = Returned (mk (structs self ++ l) (functions self))
      /\ List.length l = List.length (finditer struct_pattern content))
  /\ (exists l,
         _extract_functions content file_path self
         = Returned (mk (structs self) (functions self ++ l))
         /\ List.length l = List.length (finditer func_pattern content))
  /\ snd (_extract_from_file content file_path self) = false.
Proof.
  destruct (extract_structs_ok content file_path self) as (ss & Es & Ls & _).
  split; [eauto|].
  split.
  - destruct (extract_functions_ok content file_path self) as (fs & Ef & Lf & _).
    eauto.
  - unfold _extract_from_file. rewrite Es.
    destruct (extract_functions_ok content file_path
                (mk (structs self ++ ss) (functions self))) as (fs & -> & _).
    reflexivity.
Qed.

(** C10: for every struct body the field extraction returns, and no
    declared type it records contains a comma or a newline; a tuple type
    and a generic type with two arguments are cut at their first comma. *)
Theorem field_types_have_no_separator (fields_text : string) :
  (exists fields,
      _extract_fields fields_text = Ok fields
      /\ Forall (fun field =>
                   Py.contains "," (snd (fst field)) = false
                   /\ Py.contains (String Py.NL "") (snd (fst field)) = false)
                fields)
  /\ _extract_fields "pub pair: (u8, u16)," = Ok [("pair", "(u8", "")]
  /\ _extract_fields "pub map: HashMap<K, V>," = Ok [("map", "HashMap<K", "")].
Proof.
  split; [|split; vm_compute; reflexivity].
  destruct (extract_fields_ok fields_text) as (fields & E & _ & H).
  exists fields. split; [assumption|].
  eapply Forall_impl; [|exact H]. intros field Hf. apply Hf.
Qed.

End Claims.

(** ** Further properties of the extraction engine *)

Section MatchedText.
Import Re.

Lemma match_at_text (r : regex) (pos : nat) (s : string) (m : match_obj) :
  match_at r pos s = Some m ->
  exists t b, s = (t ++ b)%string /\ matches r t [] (m_groups m)
              /\ m_start m = pos.
Proof.
  unfold match_at. destruct (run r _ _) as [st|] eqn:E; [|discriminate].
  intros [= <-]. apply run_sound in E as (t & st' & Hs & M & [= ->]).
  simpl in *. eauto.
Qed.

(** A match of [finditer] is a match of a piece of the text, and it
    starts where that piece starts. *)
Lemma scan_text (r : regex) (s : string) :
  forall skip pos m,
    In m (scan r skip pos s) ->
    exists a t b, s = (a ++ t ++ b)%string /\ matches r t [] (m_groups m)
                  /\ m_start m = pos + String.length a.
Proof.
  induction s as [|c s IH]; intros skip pos m; destruct skip; simpl.
  - destruct (match_at r pos "") as [m0|] eqn:E; [|intros []].
    intros [<-|[]]. apply match_at_text in E as (t & b & Hs & M & Hp).
    exists "", t, b. simpl. rewrite Nat.add_0_r. auto.
  - intros [].
  - assert (In m (scan r 0 (S pos) s) \/ In m (scan r (pred 0) (S pos) s) ->
            exists a t b, String c s = (a ++ t ++ b)%string
                          /\ matches r t [] (m_groups m)
                          /\ m_start m = pos + String.length a) as Hrest.
    { intros [H|H]; apply IH in H as (a & t & b & -> & M & Hp);
        exists (String c a), t, b; simpl; rewrite Hp; repeat split; auto; lia. }
    destruct (match_at r pos (String c s)) as [m0|] eqn:E; [|auto].
    intros [<-|Hin].
    + apply match_at_text in E as (t & b & Hs & M & Hp).
      exists "", t, b. simpl. rewrite Nat.add_0_r. auto.
    + apply IH in Hin as (a & t & b & -> & M & Hp).
      exists (String c a), t, b. simpl. rewrite Hp. repeat split; auto; lia.
  - intros H. apply IH in H as (a & t & b & -> & M & Hp).
    exists (String c a), t, b. simpl. rewrite Hp. repeat split; auto; lia.
Qed.

Lemma scan_starts (r : regex) (s : string) :
  forall skip pos,
    StronglySorted lt (map m_start (scan r skip pos s)).
Proof.
  induction s as [|c s IH]; intros skip pos; destruct skip; simpl.
  - destruct (match_at r pos ""); repeat constructor.
  - constructor.
  - destruct (match_at r pos (String c s)) as [m0|] eqn:E; [|apply IH].
    simpl. constructor; [apply IH|].
    apply match_at_text in E as (_ & _ & _ & _ & ->).
    apply Forall_forall. intros n Hn. apply in_map_iff in Hn as (m & <- & Hm).
    apply scan_text in Hm as (a & t & b & _ & _ & ->). lia.
  - apply IH.
Qed.

Lemma search_text (r : regex) (s : string) (m : match_obj) :
  search r s = Some m ->
  exists a t b, s = (a ++ t ++ b)%string /\ matches r t [] (m_groups m).
Proof.
  unfold search. generalize 0. induction s as [|c s IH]; intros pos; simpl.
  - destruct (match_at r pos "") eqn:E; [|discriminate].
    intros [= <-]. apply match_at_text in E as (t & b & Hs & M & _).
    exists "", t, b. auto.
  - destruct (match_at r pos (String c s)) eqn:E.
    + intros [= <-]. apply match_at_text in E as (t & b & Hs & M & _).
      exists "", t, b. auto.
    + intros H. apply IH in H as (a & t & b & -> & M).
      exists (String c a), t, b. auto.
Qed.

Lemma matches_seq (r1 r2 : regex) (t : string) (c c' : captures) :
  matches (Seq r1 r2) t c c' ->
  exists t1 t2 c1, t = (t1 ++ t2)%string
                   /\ matches r1 t1 c c1 /\ matches r2 t2 c1 c'.
Proof. inversion 1; subst. eauto 6. Qed.

Lemma matches_lit (l t : string) (c c' : captures) :
  matches (Lit l) t c c' -> t = l /\ c' = c.
Proof.
  revert t c; induction l as [|a l IH]; intros t c; simpl.
  - inversion 1; auto.
  - intros M. apply matches_seq in M as (t1 & t2 & c1 & -> & M1 & M2).
    apply matches_chr in M1 as (x & -> & Hx & ->).
    apply IH in M2 as [-> ->]. apply Ascii.eqb_eq in Hx. subst. auto.
Qed.

Lemma contains_inside (n a t b : string) :
  Py.contains n t = true -> Py.contains n (a ++ t ++ b) = true.
Proof.
  rewrite !contains_iff. intros (x & y & ->).
  exists (a ++ x)%string, (y ++ b)%string. now rewrite !append_assoc.
Qed.

Lemma contains_right (n a t : string) :
  Py.contains n t = true -> Py.contains n (a ++ t) = true.
Proof.
  intros H. rewrite <- (append_nil_r t). now apply contains_inside.
Qed.

Lemma contains_left (n t b : string) :
  Py.contains n t = true -> Py.contains n (t ++ b) = true.
Proof.
  intros H. apply (contains_inside n "" t b H).
Qed.

Lemma contains_self_prefix (n b : string) : Py.contains n (n ++ b) = true.
Proof. apply contains_iff. now exists "", b. Qed.

End MatchedText.

Section ExtractedRecords.
Import Re RustDocExtractor Spec.

Lemma mapM_Forall2 {A B : Type} (f : A -> result B) (l : list A) (bs : list B) :
  mapM f l = Ok bs -> Forall2 (fun a b => f a = Ok b) l bs.
Proof.
  revert bs; induction l as [|a l IH]; intros bs; simpl.
  - intros [= <-]. constructor.
  - destruct (f a) as [b|e] eqn:E; simpl; [|discriminate].
    destruct (mapM f l) as [bs'|e]; simpl; [|discriminate].
    intros [= <-]. constructor; auto.
Qed.

Lemma Forall2_functional {A B : Type} (f : A -> result B) (l : list A)
  (bs bs' : list B) :
  Forall2 (fun a b => f a = Ok b) l bs ->
  Forall2 (fun a b => f a = Ok b) l bs' -> bs = bs'.
Proof.
  intros H. revert bs'. induction H; intros bs' H'; inversion H'; subst.
  - reflexivity.
  - f_equal; [congruence | auto].
Qed.

Lemma Forall2_map_eq {A B C : Type} (R : A -> B -> Prop) (f : A -> C) (g : B -> C)
  (l : list A) (bs : list B) :
  (forall a b, R a b -> g b = f a) -> Forall2 R l bs -> map g bs = map f l.
Proof. intros H. induction 1; simpl; f_equal; auto. Qed.

Lemma Forall2_Forall_r {A B : Type} (R : A -> B -> Prop) (P : A -> Prop)
  (Q : B -> Prop) (l : list A) (bs : list B) :
  (forall a b, P a -> R a b -> Q b) ->
  Forall P l -> Forall2 R l bs -> Forall Q bs.
Proof.
  intros H HP HR. induction HR; constructor; inversion HP; subst; eauto.
Qed.

(** The struct scan appends the records of the matches, in their order. *)
Lemma extract_structs_matches (content file_path : string) (self : t) :
  exists l,
    _extract_structs content file_path self
    = Returned (mk (structs self ++ l) (functions self))
    /\ Forall2 (fun m s => struct_of_match content file_path m = Ok s)
               (finditer struct_pattern content) l.
Proof.
  unfold _extract_structs.
  pose proof (struct_of_match_ok content file_path) as H.
  revert self H. generalize (finditer struct_pattern content) as ms.
  induction ms as [|m ms IH]; intros self H; simpl.
  - exists []. rewrite app_nil_r. destruct self; auto.
  - destruct (H m (or_introl eq_refl)) as (s & E & _). rewrite E.
    destruct (IH (mk (structs self ++ [s]) (functions self))) as (l & -> & HF).
    { intros; apply H; now right. }
    exists (s :: l). simpl. rewrite <- app_assoc. simpl. auto.
Qed.

Lemma extract_functions_matches (content file_path : string) (self : t) :
  exists l,
    _extract_functions content file_path self
    = Returned (mk (structs self) (functions self ++ l))
    /\ Forall2 (fun m f => function_of_match content file_path m = Ok f)
               (finditer func_pattern content) l.
Proof.
  unfold _extract_functions.
  pose proof (function_of_match_ok content file_path) as H.
  revert self H. generalize (finditer func_pattern content) as ms.
  induction ms as [|m ms IH]; intros self H; simpl.
  - exists []. rewrite app_nil_r. destruct self; auto.
  - destruct (H m (or_introl eq_refl)) as (f & E & _). rewrite E.
    destruct (IH (mk (structs self) (functions self ++ [f]))) as (l & -> & HF).
    { intros; apply H; now right. }
    exists (f :: l). simpl. rewrite <- app_assoc. simpl. auto.
Qed.

(** What a record holds of the match it was made from. *)
Lemma struct_of_match_record (content file_path : string) (m : match_obj)
  (s : StructInfo) :
  struct_of_match content file_path m = Ok s ->
  s_line_number s = line_of content (m_start m)
  /\ s_file_path s = file_path
  /\ group (m_groups m) "name" = Some (s_name s)
  /\ s_doc_comment s = clean_group m "doc"
  /\ _find_size_calculation content (s_name s) = Ok (s_size_calculation s)
  /\ exists fields_text,
       group (m_groups m) "fields" = Some fields_text
       /\ _extract_fields fields_text = Ok (s_fields s).
Proof.
  unfold struct_of_match, group_str.
  destruct (group (m_groups m) "attrs"); cbn [bind]; [|discriminate].
  destruct (mapM _ _); cbn [bind]; [|discriminate].
  destruct (group (m_groups m) "name"); cbn [bind]; [|discriminate].
  destruct (group (m_groups m) "fields") as [ft|]; cbn [bind]; [|discriminate].
  destruct (_extract_fields ft) eqn:Ef; cbn [bind]; [|discriminate].
  destruct (_find_size_calculation content _) eqn:Es; cbn [bind]; [|discriminate].
  intros [= <-]. simpl. repeat split; eauto.
Qed.

Lemma function_of_match_record (content file_path : string) (m : match_obj)
  (f : FunctionInfo) :
  function_of_match content file_path m = Ok f ->
  f_line_number f = line_of content (m_start m)
  /\ f_file_path f = file_path
  /\ group (m_groups m) "name" = Some (f_name f)
  /\ (f_is_public f = true <-> group (m_groups m) "visibility" <> None)
  /\ f_return_type f
     = Py.strip match group (m_groups m) "return" with
                | Some t => if Py.truthy t then t else "()"
                | None => "()"
                end.
Proof.
  unfold function_of_match, group_str.
  destruct (group (m_groups m) "name"); cbn [bind]; [|discriminate].
  intros [= <-]. simpl. repeat split; auto.
  - destruct (group (m_groups m) "visibility"); congruence.
  - destruct (group (m_groups m) "visibility"); congruence.
Qed.

Lemma count_take_le (c : ascii) (n : nat) (s : string) :
  Py.count c (Py.take n s) <= Py.count c s.
Proof.
  revert n; induction s as [|a s IH]; intros [|n]; simpl; try lia.
  specialize (IH n). lia.
Qed.

Lemma count_take_mono (c : ascii) (n m : nat) (s : string) :
  n <= m -> Py.count c (Py.take n s) <= Py.count c (Py.take m s).
Proof.
  revert n m; induction s as [|a s IH]; intros [|n] [|m] H; simpl; try lia.
  assert (n <= m) as H' by lia. specialize (IH n m H'). lia.
Qed.

Lemma line_of_bounds (content : string) (start : nat) :
  1 <= line_of content start <= line_count content.
Proof.
  unfold line_of, line_count. pose proof (count_take_le Py.NL start content). lia.
Qed.

Lemma sorted_lines (content : string) (starts : list nat) :
  StronglySorted lt starts ->
  StronglySorted le (map (line_of content) starts).
Proof.
  induction 1 as [|n l Hs IH Hall]; simpl; constructor; [assumption|].
  apply Forall_forall. intros k Hk. apply in_map_iff in Hk as (j & <- & Hj).
  rewrite Forall_forall in Hall. specialize (Hall j Hj).
  unfold line_of. pose proof (count_take_mono Py.NL n j content). lia.
Qed.

Lemma struct_name_word : captured (all_chars Py.isword) "name" struct_pattern.
Proof. captured_by matches_plus_chr. Qed.

Lemma func_name_word : captured (all_chars Py.isword) "name" func_pattern.
Proof. captured_by matches_plus_chr. Qed.

Lemma field_name_word : captured (all_chars Py.isword) "name" field_pattern.
Proof. captured_by matches_plus_chr. Qed.

Lemma func_return_chars :
  captured (all_chars (none_of "{;")) "return" func_pattern.
Proof. captured_by matches_plus_chr. Qed.

Lemma extract_fields_words (fields_text : string)
  (fields : list (string * string * string)) :
  _extract_fields fields_text = Ok fields ->
  Forall (fun field => all_chars Py.isword (fst (fst field))) fields.
Proof.
  intros H. apply mapM_Forall2 in H.
  eapply (Forall2_Forall_r _ (fun m => In m (finditer field_pattern fields_text)));
    [|apply Forall_forall; intros m Hm; exact Hm|exact H].
  intros m [[name ty] doc] Hm. simpl. apply finditer_sound in Hm as [t M].
  unfold group_str.
  destruct (group (m_groups m) "name") as [x|] eqn:Gn; cbn [bind]; [|discriminate].
  destruct (group (m_groups m) "type"); cbn [bind]; [|discriminate].
  intros [= <- _ _]. exact (group_captured _ _ _ _ _ _ M field_name_word Gn).
Qed.

End ExtractedRecords.

Section ExtractionProperties.
Import Re RustDocExtractor Spec Examples.

Lemma no_match_without (r : regex) (kw content : string) :
  (forall t c, matches r t [] c -> Py.contains kw t = true) ->
  Py.contains kw content = false -> finditer r content = [].
Proof.
  intros Hkw Hno. destruct (finditer r content) as [|m ms] eqn:E; [reflexivity|].
  assert (In m (finditer r content)) as Hm by (rewrite E; now left).
  apply scan_text in Hm as (a & t & b & -> & M & _).
  apply Hkw in M. rewrite (contains_inside kw a t b M) in Hno. discriminate.
Qed.

Lemma struct_match_keyword (t : string) (c : captures) :
  matches struct_pattern t [] c -> Py.contains "struct" t = true.
Proof.
  unfold struct_pattern. cbn [seq]. intros M.
  do 5 (apply matches_seq in M as (? & ? & ? & -> & _ & M)).
  apply matches_seq in M as (u1 & u2 & cu & -> & M6 & _).
  apply matches_lit in M6 as [-> _].
  do 5 apply contains_right. apply contains_self_prefix.
Qed.

Lemma func_match_keyword (t : string) (c : captures) :
  matches func_pattern t [] c -> Py.contains "fn" t = true.
Proof.
  unfold func_pattern. cbn [seq]. intros M.
  do 3 (apply matches_seq in M as (? & ? & ? & -> & _ & M)).
  apply matches_seq in M as (u1 & u2 & cu & -> & M6 & _).
  apply matches_lit in M6 as [-> _].
  do 3 apply contains_right. apply contains_self_prefix.
Qed.

Lemma impl_match_keyword (struct_name t : string) (c : captures) :
  matches (impl_pattern struct_name) t [] c -> Py.contains "impl" t = true.
Proof.
  unfold impl_pattern. cbn [seq]. intros M.
  apply matches_seq in M as (u1 & u2 & cu & -> & M6 & _).
  apply matches_lit in M6 as [-> _].
  apply contains_self_prefix.
Qed.

Lemma find_size_calculation_none (content struct_name : string) :
  Py.contains "impl" content = false ->
  _find_size_calculation content struct_name = Ok None.
Proof.
  intros Hno. unfold _find_size_calculation.
  destruct (search (impl_pattern struct_name) content) as [m|] eqn:E; [|reflexivity].
  apply search_text in E as (a & t & b & -> & M).
  apply impl_match_keyword in M.
  rewrite (contains_inside "impl" a t b M) in Hno. discriminate.
Qed.

(** A file is extracted the same way whatever has been collected before. *)
Lemma extract_from_file_appends (content file_path : string) (self : t) :
  _extract_from_file content file_path self
  = (mk (structs self ++ file_structs (file_path, Some content))
        (functions self ++ file_functions (file_path, Some content)), false).
Proof.
  unfold file_structs, file_functions, _extract_from_file. simpl.
  destruct (extract_structs_matches content file_path self) as (ss & -> & Hs).
  destruct (extract_structs_matches content file_path init) as (ss0 & -> & Hs0).
  rewrite (Forall2_functional _ _ _ _ Hs0 Hs). simpl.
  destruct (extract_functions_matches content file_path
              (mk (structs self ++ ss) (functions self))) as (fs & -> & Hf).
  destruct (extract_functions_matches content file_path (mk ss [])) as (fs0 & -> & Hf0).
  rewrite (Forall2_functional _ _ _ _ Hf0 Hf). reflexivity.
Qed.

(** X1: the names of the extracted structs, of their fields and of the
    extracted functions are made of word characters only. *)
Theorem extracted_names_are_identifiers (content file_path : string) :
  exists ss fs,
    _extract_structs content file_path init = Returned (mk ss [])
    /\ _extract_functions content file_path init = Returned (mk [] fs)
    /\ Forall (fun s => all_chars Py.isword (s_name s)
                        /\ Forall (fun field => all_chars Py.isword (fst (fst field)))
                                  (s_fields s)) ss
    /\ Forall (fun f => all_chars Py.isword (f_name f)) fs.
Proof.
  destruct (extract_structs_matches content file_path init) as (ss & Es & Hs).
  destruct (extract_functions_matches content file_path init) as (fs & Ef & Hf).
  exists ss, fs. repeat split; try assumption.
  - eapply (Forall2_Forall_r _ (fun m => In m (finditer struct_pattern content)));
      [|apply Forall_forall; intros m Hm; exact Hm|exact Hs].
    intros m s Hm E. apply finditer_sound in Hm as [t M].
    apply struct_of_match_record in E as (_ & _ & Gn & _ & _ & ft & _ & Ef').
    split.
    + exact (group_captured _ _ _ _ _ _ M struct_name_word Gn).
    + eapply extract_fields_words; eauto.
  - eapply (Forall2_Forall_r _ (fun m => In m (finditer func_pattern content)));
      [|apply Forall_forall; intros m Hm; exact Hm|exact Hf].
    intros m f Hm E. apply finditer_sound in Hm as [t M].
    apply function_of_match_record in E as (_ & _ & Gn & _).
    exact (group_captured _ _ _ _ _ _ M func_name_word Gn).
Qed.

(** X2: the line number of every extracted record lies between 1 and the
    number of lines of the text, and the records of a scan are in source
    order: their line numbers never decrease. *)
Theorem line_numbers_in_source_order (content file_path : string) :
  exists ss fs,
    _extract_structs content file_path init = Returned (mk ss [])
    /\ _extract_functions content file_path init = Returned (mk [] fs)
    /\ Forall (fun s => 1 <= s_line_number s <= line_count content) ss
    /\ StronglySorted le (map s_line_number ss)
    /\ Forall (fun f => 1 <= f_line_number f <= line_count content) fs
    /\ StronglySorted le (map f_line_number fs).
Proof.
  destruct (extract_structs_matches content file_path init) as (ss & Es & Hs).
  destruct (extract_functions_matches content file_path init) as (fs & Ef & Hf).
  exists ss, fs.
  assert (map s_line_number ss
          = map (line_of content) (map m_start (finditer struct_pattern content)))
    as Ls.
  { rewrite map_map. eapply Forall2_map_eq; [|exact Hs].
    intros m s E. now apply struct_of_match_record in E as (-> & _). }
  assert (map f_line_number fs
          = map (line_of content) (map m_start (finditer func_pattern content)))
    as Lf.
  { rewrite map_map. eapply Forall2_map_eq; [|exact Hf].
    intros m f E. now apply function_of_match_record in E as (-> & _). }
  repeat split; try assumption.
  - eapply (Forall2_Forall_r _ (fun _ => True)); [|apply Forall_forall; auto|exact Hs].
    intros m s _ E. apply struct_of_match_record in E as (-> & _).
    apply line_of_bounds.
  - rewrite Ls. apply sorted_lines, scan_starts.
  - eapply (Forall2_Forall_r _ (fun _ => True)); [|apply Forall_forall; auto|exact Hf].
    intros m f _ E. apply function_of_match_record in E as (-> & _).
    apply line_of_bounds.
  - rewrite Lf. apply sorted_lines, scan_starts.
Qed.

(** X3: a text in which the word [struct] does not occur leaves the
    collections as they are under the struct scan, and so does a text
    without [fn] under the function scan. *)
Theorem no_keyword_no_record (content file_path : string) (self : t) :
  (Py.contains "struct" content = false ->
   _extract_structs content file_path self = Returned self)
  /\ (Py.contains "fn" content = false ->
      _extract_functions content file_path self = Returned self).
Proof.
  split; intros Hno.
  - unfold _extract_structs.
    rewrite (no_match_without _ "struct" content struct_match_keyword Hno).
    reflexivity.
  - unfold _extract_functions.
    rewrite (no_match_without _ "fn" content func_match_keyword Hno).
    reflexivity.
Qed.

Lemma no_keyword_no_record_example :
  _extract_structs "pub enum Side { Buy, Sell }" "a.rs" init = Returned init
  /\ _extract_functions "pub enum Side { Buy, Sell }" "a.rs" init = Returned init.
Proof.
  split.
  - apply (proj1 (no_keyword_no_record "pub enum Side { Buy, Sell }" "a.rs" init)).
    reflexivity.
  - apply (proj2 (no_keyword_no_record "pub enum Side { Buy, Sell }" "a.rs" init)).
    reflexivity.
Defined.

(** X4: when the word [impl] does not occur in a text, no struct
    extracted from it has a size calculation. *)
Theorem no_impl_no_size_calculation (content file_path : string) :
  Py.contains "impl" content = false ->
  exists ss,
    _extract_structs content file_path init = Returned (mk ss [])
    /\ Forall (fun s => s_size_calculation s = None) ss.
Proof.
  intros Hno.
  destruct (extract_structs_matches content file_path init) as (ss & Es & Hs).
  exists ss. split; [assumption|].
  eapply (Forall2_Forall_r _ (fun _ => True)); [|apply Forall_forall; auto|exact Hs].
  intros m s _ E. apply struct_of_match_record in E as (_ & _ & _ & _ & Esz & _).
  rewrite (find_size_calculation_none _ _ Hno) in Esz. congruence.
Qed.

Lemma no_impl_no_size_calculation_example :
  exists ss,
    _extract_structs "pub struct Fee { pub rate: u64 }" "a.rs" init
    = Returned (mk ss [])
    /\ Forall (fun s => s_size_calculation s = None) ss.
Proof.
  apply (no_impl_no_size_calculation "pub struct Fee { pub rate: u64 }" "a.rs").
  reflexivity.
Defined.

(** X5: [extract_all] appends to the collections, file after file, what
    each readable file yields on its own, without merging records of
    different files, and prints one warning for each unreadable file and no
    other. *)
Theorem extract_all_accumulates (files : list (string * option string)) (self : t) :
  extract_all files self
  = (mk (structs self ++ flat_map file_structs files)
        (functions self ++ flat_map file_functions files),
     unreadable files).
Proof.
  revert self; induction files as [|[file_path [content|]] files IH];
    intros self; cbn [extract_all].
  - simpl. rewrite !app_nil_r. now destruct self.
  - rewrite extract_from_file_appends, IH. cbn [structs functions flat_map].
    rewrite <- !app_assoc. reflexivity.
  - rewrite IH. reflexivity.
Qed.

(** X6: the return type of an extracted function contains no opening
    brace and no semicolon. *)
Theorem return_type_has_no_body_marker (content file_path : string) :
  exists fs,
    _extract_functions content file_path init = Returned (mk [] fs)
    /\ Forall (fun f => Py.contains "{" (f_return_type f) = false
                        /\ Py.contains ";" (f_return_type f) = false) fs.
Proof.
  destruct (extract_functions_matches content file_path init) as (fs & Ef & Hf).
  exists fs. split; [assumption|].
  eapply (Forall2_Forall_r _ (fun m => In m (finditer func_pattern content)));
    [|apply Forall_forall; intros m Hm; exact Hm|exact Hf].
  intros m f Hm E. apply finditer_sound in Hm as [t M].
  apply function_of_match_record in E as (_ & _ & _ & _ & ->).
  assert (all_chars (none_of "{;")
            (Py.strip match group (m_groups m) "return" with
                      | Some t => if Py.truthy t then t else "()"
                      | None => "()"
                      end)) as Hall.
  { apply all_chars_strip.
    destruct (group (m_groups m) "return") as [x|] eqn:G; [|simpl; auto].
    pose proof (group_captured _ _ _ _ _ _ M func_return_chars G).
    destruct (Py.truthy x); [assumption | simpl; auto]. }
  split; apply (all_chars_not_contains (none_of "{;")); solve [reflexivity | assumption].
Qed.

End ExtractionProperties.

(** ** Further properties of parameters and doc comments *)

Section TextProperties.
Import Re RustDocExtractor Spec.

Lemma all_chars_without (a : ascii) (s : string) :
  Py.contains (String a "") s = false -> all_chars (is_not a) s.
Proof.
  induction s as [|c s IH]; [simpl; auto|].
  cbn [Py.contains]. rewrite orb_false_iff. intros [Hp Hc]. split; [|auto].
  unfold is_not. simpl in Hp. destruct (ascii_dec a c) as [->|Hne].
  - destruct s; discriminate.
  - destruct (Ascii.eqb_spec c a); [congruence | reflexivity].
Qed.

Lemma without_all_chars (a : ascii) (s : string) :
  all_chars (is_not a) s -> Py.contains (String a "") s = false.
Proof.
  apply all_chars_not_contains. unfold is_not. now rewrite Ascii.eqb_refl.
Qed.

Lemma all_chars_split (p : ascii -> bool) (c : ascii) (s : string) :
  all_chars p s -> Forall (all_chars p) (Py.split c s).
Proof.
  induction s as [|a s IH]; simpl.
  - repeat constructor.
  - intros [Ha Hs]. specialize (IH Hs). destruct (Ascii.eqb a c).
    + constructor; simpl; auto.
    + destruct (Py.split c s) as [|l ls]; [repeat constructor; auto|].
      inversion IH; subst. constructor; simpl; auto.
Qed.

Lemma split_pieces (c : ascii) (s : string) :
  Forall (all_chars (is_not c)) (Py.split c s).
Proof.
  induction s as [|a s IH]; simpl.
  - repeat constructor.
  - destruct (Ascii.eqb_spec a c) as [->|Hne].
    + constructor; simpl; auto.
    + assert (is_not c a = true) as Ha.
      { unfold is_not. destruct (Ascii.eqb_spec a c); [congruence | reflexivity]. }
      destruct (Py.split c s) as [|l ls]; [repeat constructor; auto|].
      inversion IH; subst. constructor; simpl; auto.
Qed.

Lemma length_split (c : ascii) (s : string) :
  List.length (Py.split c s) = Py.count c s + 1.
Proof.
  induction s as [|a s IH]; simpl; [reflexivity|].
  destruct (Ascii.eqb a c); simpl; [lia|].
  destruct (Py.split c s); simpl in *; lia.
Qed.

Lemma split1_none (sep : ascii) (s : string) :
  all_chars (is_not sep) s -> Py.split1 sep s = None.
Proof.
  induction s as [|a s IH]; simpl; [reflexivity|].
  unfold is_not at 1. intros [Ha Hs]. rewrite (IH Hs).
  destruct (Ascii.eqb a sep); [discriminate | reflexivity].
Qed.

Lemma split1_parts (p : ascii -> bool) (sep : ascii) (s a b : string) :
  Py.split1 sep s = Some (a, b) -> all_chars p s ->
  all_chars p a /\ all_chars p b /\ all_chars (is_not sep) a.
Proof.
  revert a; induction s as [|c s IH]; intros a; simpl; [discriminate|].
  destruct (Ascii.eqb_spec c sep) as [->|Hne].
  - intros [= <- <-] [_ Hs]. simpl. auto.
  - destruct (Py.split1 sep s) as [[a' b']|]; [|discriminate].
    intros [= <- <-] [Hc Hs]. destruct (IH a' eq_refl Hs) as (Ha & Hb & Hn).
    simpl. unfold is_not at 1.
    destruct (Ascii.eqb_spec c sep); [congruence|]. auto.
Qed.

Lemma all_chars_drop (p : ascii -> bool) (n : nat) (s : string) :
  all_chars p s -> all_chars p (Py.drop n s).
Proof.
  revert s; induction n as [|n IH]; intros [|c s]; simpl; auto.
  intros [_ Hs]. auto.
Qed.

Lemma extract_parameter_acc (acc : list (string * string)) (param : string) :
  _extract_parameter acc param = acc ++ parameter_of param.
Proof.
  unfold parameter_of, _extract_parameter.
  destruct (Py.split1 ":" _) as [[a b]|]; [reflexivity | now rewrite app_nil_r].
Qed.

Lemma parameters_flat_map (pieces : list string) :
  fold_left _extract_parameter pieces [] = flat_map parameter_of pieces.
Proof.
  rewrite <- (app_nil_l (flat_map _ _)). generalize (@nil (string * string)) as acc.
  induction pieces as [|x pieces IH]; intros acc; simpl.
  - now rewrite app_nil_r.
  - rewrite IH, extract_parameter_acc, <- app_assoc. reflexivity.
Qed.

Lemma parameter_of_length (param : string) : List.length (parameter_of param) <= 1.
Proof.
  unfold parameter_of, _extract_parameter.
  destruct (Py.split1 ":" _) as [[a b]|]; simpl; lia.
Qed.

Lemma flat_map_length_le {A B : Type} (f : A -> list B) (l : list A) :
  (forall a, List.length (f a) <= 1) ->
  List.length (flat_map f l) <= List.length l.
Proof.
  intros H. induction l as [|a l IH]; simpl; [lia|].
  rewrite length_app. specialize (H a). lia.
Qed.

(** The name and the type of the parameter of a piece without a comma. *)
Lemma parameter_of_chars (param : string) :
  all_chars (is_not ",") param ->
  Forall (fun p => all_chars (is_not ",") (fst p)
                   /\ all_chars (is_not ":") (fst p)
                   /\ all_chars (is_not ",") (snd p)) (parameter_of param).
Proof.
  intros H. unfold parameter_of, _extract_parameter.
  destruct (Py.split1 ":" (Py.strip param)) as [[a b]|] eqn:E; [|constructor].
  apply (split1_parts (is_not ",")) in E as (Ha & Hb & Hn);
    [|now apply all_chars_strip].
  constructor; [|constructor]. simpl.
  assert (forall p, all_chars p (Py.strip a) ->
            all_chars p
              (if Py.startswith "&"
                    (if Py.startswith "mut " (Py.strip a)
                     then Py.drop 4 (Py.strip a) else Py.strip a)
               then Py.drop 1 (if Py.startswith "mut " (Py.strip a)
                               then Py.drop 4 (Py.strip a) else Py.strip a)
               else if Py.startswith "mut " (Py.strip a)
                    then Py.drop 4 (Py.strip a) else Py.strip a)) as Hname.
  { intros p Hp.
    destruct (Py.startswith "mut " (Py.strip a));
      destruct (Py.startswith "&" _); repeat apply all_chars_drop; assumption. }
  repeat split.
  - apply Hname. now apply all_chars_strip.
  - apply Hname. now apply all_chars_strip.
  - now apply all_chars_strip.
Qed.

(** X7: a parameter list yields at most one parameter for each of its
    comma-separated pieces, and no name or type it records contains a comma,
    and no name a colon. *)
Theorem parameters_bounded_and_separated (params_text : string) :
  List.length (_extract_parameters params_text) <= Py.count "," params_text + 1
  /\ Forall (fun p => Py.contains "," (fst p) = false
                      /\ Py.contains ":" (fst p) = false
                      /\ Py.contains "," (snd p) = false)
            (_extract_parameters params_text).
Proof.
  unfold _extract_parameters.
  destruct (negb (Py.truthy (Py.strip params_text))); [simpl; split; [lia|constructor]|].
  rewrite parameters_flat_map. split.
  - rewrite <- length_split. apply flat_map_length_le, parameter_of_length.
  - apply Forall_flat_map.
    eapply Forall_impl; [|apply (split_pieces "," params_text)].
    intros piece Hpiece.
    eapply Forall_impl; [|apply (parameter_of_chars piece Hpiece)].
    intros p (H1 & H2 & H3). repeat split; now apply without_all_chars.
Qed.

(** X8: a parameter list without a colon yields no parameter. *)
Theorem no_colon_no_parameter (params_text : string) :
  Py.contains ":" params_text = false -> _extract_parameters params_text = [].
Proof.
  intros Hno. unfold _extract_parameters.
  destruct (negb (Py.truthy (Py.strip params_text))); [reflexivity|].
  rewrite parameters_flat_map.
  pose proof (all_chars_split _ "," _ (all_chars_without ":" _ Hno)) as Hpieces.
  induction Hpieces as [|piece pieces Hpiece _ IH]; [reflexivity|].
  simpl. rewrite IH. unfold parameter_of, _extract_parameter.
  rewrite split1_none; [reflexivity | now apply all_chars_strip].
Qed.

Lemma no_colon_no_parameter_example :
  _extract_parameters "&mut self, amount" = [].
Proof. apply no_colon_no_parameter. reflexivity. Defined.

(** X9: cleaning a doc comment gives the empty string or a text that is
    at least three characters shorter than the one it was given. *)
Theorem clean_drops_leader (doc_text : string) :
  _clean_doc_comment doc_text = ""
  \/ String.length (_clean_doc_comment doc_text) + 3 <= String.length doc_text.
Proof.
  unfold _clean_doc_comment. destruct (negb (Py.truthy doc_text)); [now left|].
  rewrite cleaned_lines_flat_map.
  destruct (cleaned_lines_weight (Py.split Py.NL (Py.strip doc_text))) as [->|H].
  - now left.
  - rewrite weight_split in H. pose proof (length_strip doc_text) as Hs.
    destruct (flat_map cleaned_line (Py.split Py.NL (Py.strip doc_text)))
      as [|x l] eqn:E; [now left|].
    right. assert (x :: l <> []) as Hne by discriminate.
    apply (length_join Py.NL) in Hne. lia.
Qed.

(** X10: a text without a slash cleans to the empty string. *)
Theorem clean_without_leader (doc_text : string) :
  Py.contains "/" doc_text = false -> _clean_doc_comment doc_text = "".
Proof.
  intros Hno. unfold _clean_doc_comment.
  destruct (negb (Py.truthy doc_text)); [reflexivity|].
  rewrite cleaned_lines_flat_map.
  pose proof (all_chars_split _ Py.NL _
                (all_chars_strip _ _ (all_chars_without "/" _ Hno))) as Hlines.
  induction Hlines as [|line lines Hline _ IH]; [reflexivity|].
  cbn [flat_map]. unfold cleaned_line at 1, _clean_line.
  apply (all_chars_strip _ line) in Hline.
  assert (forall p, Py.startswith (String "/" p) (Py.strip line) = false) as Hstart.
  { intros p. destruct (Py.startswith _ _) eqn:E; [|reflexivity].
    apply prefix_iff in E as [x E]. rewrite E in Hline.
    destruct Hline as [Hc _]. discriminate. }
  rewrite !Hstart. exact IH.
Qed.

Lemma clean_without_leader_example :
  _clean_doc_comment "Holds reserve state" = "".
Proof. apply clean_without_leader. reflexivity. Defined.

End TextProperties.

(** ** Further properties of the generation engine *)

Section GenerationProperties.
Import Re RustDocExtractor DocumentationGenerator Spec Examples.

Lemma category_of_cases (s : StructInfo) :
  category_of s = "Account Structures" \/ category_of s = "Data Structures"
  \/ category_of s = "Configuration Structures"
  \/ category_of s = "Other Structures".
Proof.
  unfold category_of.
  destruct (Py.contains "account" _); [auto|].
  destruct (Py.contains "config" _); [auto|].
  destruct (existsb _ _); auto.
Qed.

Lemma contains_account (x : string) :
  Py.contains "account(zero_copy)" x = true -> Py.contains "account" x = true.
Proof.
  rewrite !contains_iff. intros (a & b & ->).
  exists a, ("(zero_copy)" ++ b)%string. reflexivity.
Qed.

(** X11: a struct is put under [Account Structures] exactly when one of
    its attributes contains the word [account], whatever its name is. *)
Theorem account_category_iff (s : StructInfo) :
  category_of s = "Account Structures"
  <-> existsb (Py.contains "account") (s_attributes s) = true.
Proof.
  rewrite <- (contains_join_space "account") by (discriminate || reflexivity).
  unfold category_of.
  destruct (Py.contains "account" _); [tauto|].
  destruct (Py.contains "config" _); [split; discriminate|].
  destruct (existsb _ _); split; discriminate.
Qed.

(** X12: a struct with a zero-copy attribute is an account struct: of
    the four categories of the structures reference it is listed under
    [Account Structures] and under no other. *)
Theorem zero_copy_is_account (s : StructInfo) (structs : list StructInfo) :
  has_zero_copy_attr s = true -> In s structs ->
  In s (in_category "Account Structures" structs)
  /\ ~ In s (in_category "Data Structures" structs)
  /\ ~ In s (in_category "Configuration Structures" structs)
  /\ ~ In s (in_category "Other Structures" structs).
Proof.
  intros Hz Hs.
  assert (category_of s = "Account Structures") as Hc.
  { apply account_category_iff. unfold has_zero_copy_attr in Hz.
    apply existsb_exists in Hz as (a & Ha & Hz). apply existsb_exists.
    exists a. split; [assumption | now apply contains_account]. }
  unfold in_category. rewrite !filter_In, Hc. repeat split; auto;
    intros [_ H]; discriminate.
Qed.

Lemma zero_copy_is_account_example :
  In reserve (in_category "Account Structures" [pool_config; reserve])
  /\ ~ In reserve (in_category "Data Structures" [pool_config; reserve])
  /\ ~ In reserve (in_category "Configuration Structures" [pool_config; reserve])
  /\ ~ In reserve (in_category "Other Structures" [pool_config; reserve]).
Proof.
  apply (zero_copy_is_account reserve [pool_config; reserve]).
  - reflexivity.
  - simpl. auto.
Defined.

(** X13: the four categories share out the structs: listing the
    categories one after the other gives every struct exactly once. *)
Theorem categories_partition (structs : list StructInfo) :
  Permutation (flat_map (fun c => in_category c structs) dict_order) structs.
Proof.
  unfold dict_order. cbn [flat_map]. rewrite app_nil_r.
  induction structs as [|s structs IH]; [reflexivity|].
  unfold in_category in *. cbn [filter].
  destruct (category_of_cases s) as [E|[E|[E|E]]]; rewrite E; simpl.
  - now constructor.
  - symmetry. apply Permutation_cons_app. symmetry. exact IH.
  - symmetry. rewrite app_assoc. apply Permutation_cons_app.
    rewrite <- app_assoc. symmetry. exact IH.
  - symmetry. rewrite !app_assoc. apply Permutation_cons_app.
    rewrite <- !app_assoc. symmetry. exact IH.
Qed.


Lemma filter_idem {A : Type} (p : A -> bool) (l : list A) :
  filter p (filter p l) = filter p l.
Proof.
  induction l as [|a l IH]; simpl; [reflexivity|].
  destruct (p a) eqn:E; simpl; [rewrite E; congruence | assumption].
Qed.

(** X15: the private functions have no part in the function reference:
    it is the one of the public functions alone. *)
Theorem function_reference_ignores_private (functions : list FunctionInfo) :
  function_reference_content functions
  = function_reference_content (filter f_is_public functions).
Proof.
  unfold function_reference_content. now rewrite filter_idem.
Qed.

Lemma captured_lit (P : string -> Prop) (g l : string) : captured P g (Lit l).
Proof. induction l; simpl; auto. Qed.

Lemma size_captured (struct_name : string) :
  captured (all_chars (none_of "}")) "1" (impl_pattern struct_name).
Proof.
  pose proof (captured_lit (all_chars (none_of "}")) "1" struct_name) as HL.
  unfold impl_pattern. cbn [seq captured]. cbv [ws ws1 Plus].
  cbn [captured].
  repeat split; try apply captured_lit.
  intros _ t c c' M. change (Seq (Chr (none_of "}")) (Star true (Chr (none_of "}"))))
    with (Plus (Chr (none_of "}"))) in M.
  apply matches_plus_chr in M. tauto.
Qed.

(** X16: a size calculation that is found contains no closing brace. *)
Theorem size_calculation_has_no_brace (content struct_name size : string) :
  _find_size_calculation content struct_name = Ok (Some size) ->
  Py.contains "}" size = false.
Proof.
  unfold _find_size_calculation, group_str.
  destruct (search (impl_pattern struct_name) content) as [m|] eqn:E; [|discriminate].
  apply search_sound in E as [t M].
  destruct (group (m_groups m) "1") as [x|] eqn:G; cbn [bind]; [|discriminate].
  intros [= <-].
  pose proof (group_captured _ _ _ _ _ _ M (size_captured struct_name) G) as H.
  apply (all_chars_not_contains (none_of "}")); [reflexivity|].
  now apply all_chars_strip.
Qed.

Lemma size_calculation_has_no_brace_example :
  Py.contains "}" "8 + 32" = false.
Proof.
  apply (size_calculation_has_no_brace
           "impl Fee { fn space() -> usize { 8 + 32 } }" "Fee" "8 + 32").
  reflexivity.
Defined.

End GenerationProperties.
